(** * Baserow enterprise SSO: the OAuth2 / OpenID Connect provider types

    A shallow embedding of
    [enterprise/backend/src/baserow_enterprise/sso/oauth2/auth_provider_types.py].

    Python values that cross the HTTP boundary are JSON documents, so they are
    embedded as the inductive type [Json]; Python exceptions are the
    constructors of [PyExc]; a method that mutates the Django session, the
    JWKS cache or the provider table, or that talks to the network, is a
    computation in the state-and-exception monad [M] over [World].

    Third-party libraries ([json], [requests], [requests_oauthlib], [jwt]) and
    the remote providers are not part of the repository: they are the fields
    of the class [Env], over which every statement is quantified. *)

From Stdlib Require Import ZArith NArith Ascii String.
From stdpp Require Import gmap strings list fin_maps.

Local Open Scope Z_scope.
Set Warnings "-register-all".

(** ** Python values *)

Module Py.

(** JSON documents as [json.loads] / [Response.json()] produce them.  A
    [JDict] is the Python [dict]: keys are unique and keep insertion order.
    Numbers are the integers; no method of the module computes with one.
    A Python [str] is the string of its UTF-8 encoding, which is what a
    string literal of this file holds; [chunks] below cuts it into its
    characters. *)
Inductive Json : Type :=
  | JNull
  | JBool (b : bool)
  | JNum (n : Z)
  | JStr (s : string)
  | JList (l : list Json)
  | JDict (d : list (string * Json)).

(** The exceptions the module raises or lets through.  [Upstream] stands for
    any exception of a third-party library ([requests], [oauthlib], [jwt]);
    its argument is the provider detail the exception carries. *)
Inductive PyExc : Type :=
  | AuthFlowError (msg : option string)
  | InvalidProviderUrl
  | KeyError (key : string)
  | TypeError
  | AttributeError
  | JSONDecodeError
  | RecursionError
  | NotImplementedError
  | Upstream (detail : string).

Inductive Outcome (A : Type) : Type :=
  | Returns (a : A)
  | Raises (e : PyExc).
Arguments Returns {A} a.
Arguments Raises {A} e.

#[global] Instance Outcome_ret : MRet Outcome := @Returns.
#[global] Instance Outcome_bind : MBind Outcome := fun A B k o =>
  match o with
  | Returns a => k a
  | Raises e => Raises e
  end.

(** [bool(v)] *)
Definition truthy (v : Json) : bool :=
  match v with
  | JNull => false
  | JBool b => b
  | JNum n => negb (n =? 0)
  | JStr s => negb (String.eqb s "")
  | JList l => match l with [] => false | _ => true end
  | JDict d => match d with [] => false | _ => true end
  end.

(** [isinstance(v, dict)] *)
Definition is_dict (v : Json) : bool :=
  match v with JDict _ => true | _ => false end.

Fixpoint dict_lookup (k : string) (d : list (string * Json)) : option Json :=
  match d with
  | [] => None
  | (k', v) :: d' => if String.eqb k k' then Some v else dict_lookup k d'
  end.

(** [d[k] = v] on a dict: an existing key keeps its position. *)
Fixpoint dict_set (k : string) (v : Json) (d : list (string * Json))
  : list (string * Json) :=
  match d with
  | [] => [(k, v)]
  | (k', v') :: d' =>
      if String.eqb k k' then (k, v) :: d' else (k', v') :: dict_set k v d'
  end.

(** [v.get(k, default)]: only a dict has the method. *)
Definition py_get (v : Json) (k : string) (default : Json) : Outcome Json :=
  match v with
  | JDict d => Returns (match dict_lookup k d with Some x => x | None => default end)
  | _ => Raises AttributeError
  end.

(** [v[k]] with a string subscript. *)
Definition py_getitem (v : Json) (k : string) : Outcome Json :=
  match v with
  | JDict d => match dict_lookup k d with
               | Some x => Returns x
               | None => Raises (KeyError k)
               end
  | _ => Raises TypeError
  end.

(** [v[k] = x] with a string subscript. *)
Definition py_setitem (v : Json) (k : string) (x : Json) : Outcome Json :=
  match v with
  | JDict d => Returns (JDict (dict_set k x d))
  | _ => Raises TypeError
  end.

(** *** The characters of a text *)

(** The value of a byte. *)
Definition code (c : ascii) : N := N_of_ascii c.

(** A continuation byte of UTF-8, [10xxxxxx]. *)
Definition is_cont (c : ascii) : bool :=
  ((128 <=? code c) && (code c <? 192))%N.

(** How many continuation bytes the lead byte [c] announces. *)
Definition need (c : ascii) : nat :=
  if (code c <? 192)%N then 0%nat
  else if (code c <? 224)%N then 1%nat
  else if (code c <? 240)%N then 2%nat
  else if (code c <? 248)%N then 3%nat
  else 0%nat.

(** The first [n] bytes of [z] when they are all continuation bytes, with
    what follows them. *)
Fixpoint conts (n : nat) (z : string) : option (string * string) :=
  match n with
  | O => Some (EmptyString, z)
  | S k =>
      match z with
      | String b z' =>
          if is_cont b
          then match conts k z' with
               | Some (q, r) => Some (String b q, r)
               | None => None
               end
          else None
      | EmptyString => None
      end
  end.

(** The characters of a text, each with the bytes that encode it: a lead
    byte with the continuation bytes it announces.  A byte that does not
    begin such a sequence (it never occurs in the encoding of a [str]) is
    the character of its own value.  [skip] bytes, which belong to the
    character before, are passed over. *)
Fixpoint chunks_from (skip : nat) (s : string) : list string :=
  match s with
  | EmptyString => []
  | String a z =>
      match skip with
      | S k => chunks_from k z
      | O =>
          match conts (need a) z with
          | Some (q, _) => String a q :: chunks_from (need a) z
          | None => String a EmptyString :: chunks_from 0 z
          end
      end
  end.

Definition chunks (s : string) : list string := chunks_from 0 s.

(** [ "".join(l) ] *)
Definition flatten (l : list string) : string :=
  fold_right String.append EmptyString l.

Definition chars (s : string) : list Json := List.map JStr (chunks s).

(** [for x in v] *)
Definition py_iter (v : Json) : Outcome (list Json) :=
  match v with
  | JList l => Returns l
  | JDict d => Returns (map (fun kv => JStr (fst kv)) d)
  | JStr s => Returns (chars s)
  | _ => Raises TypeError
  end.

(** [v[0]] *)
Definition py_first (v : Json) : Outcome Json :=
  match v with
  | JList (x :: _) => Returns x
  | JList [] => Raises (Upstream "IndexError")
  | JStr s => match chunks s with
              | ch :: _ => Returns (JStr ch)
              | [] => Raises (Upstream "IndexError")
              end
  | JDict _ => Raises (KeyError "0")
  | _ => Raises TypeError
  end.

(** [a == b].  As in Python, [True == 1]; two dicts are equal when they have
    the same keys with equal values, whatever the order. *)
Fixpoint py_eq (a b : Json) {struct a} : bool :=
  match a, b with
  | JNull, JNull => true
  | JBool x, JBool y => Bool.eqb x y
  | JBool x, JNum n => n =? (if x then 1 else 0)
  | JNum n, JBool x => n =? (if x then 1 else 0)
  | JNum n, JNum m => n =? m
  | JStr s, JStr t => String.eqb s t
  | JList l, JList m =>
      (fix go (l m : list Json) {struct l} : bool :=
         match l, m with
         | [], [] => true
         | x :: l', y :: m' => py_eq x y && go l' m'
         | _, _ => false
         end) l m
  | JDict d, JDict e =>
      (List.length d =? List.length e)%nat &&
      (fix go (d : list (string * Json)) {struct d} : bool :=
         match d with
         | [] => true
         | (k, v) :: d' =>
             match dict_lookup k e with
             | Some v' => py_eq v v'
             | None => false
             end && go d'
         end) d
  | _, _ => false
  end.

(** *** [str.strip] *)

(** [ch.isspace()] for one character: U+0009 to U+000D, U+001C to U+0020,
    U+0085, U+00A0, U+1680, U+2000 to U+200A, U+2028, U+2029, U+202F, U+205F
    and U+3000. *)
Definition is_blank (ch : string) : bool :=
  match List.map code (list_ascii_of_string ch) with
  | [n] =>
      ((9 <=? n) && (n <=? 13) || (28 <=? n) && (n <=? 32)
       || (n =? 133) || (n =? 160))%N
  | [a; n] =>
      ((a =? 194) && ((n =? 133) || (n =? 160)))%N
  | [a; b; n] =>
      ((a =? 225) && (b =? 154) && (n =? 128)
       || (a =? 226) && (b =? 128)
          && ((128 <=? n) && (n <=? 138) || (n =? 168) || (n =? 169) || (n =? 175))
       || (a =? 226) && (b =? 129) && (n =? 159)
       || (a =? 227) && (b =? 128) && (n =? 128))%N
  | _ => false
  end.

(** The characters left once the blank ones in front are removed. *)
Fixpoint ltrim (l : list string) : list string :=
  match l with
  | [] => []
  | c :: l' => if is_blank c then ltrim l' else l
  end.

(** The characters left once the blank ones at the end are removed. *)
Fixpoint rtrim (l : list string) : list string :=
  match l with
  | [] => []
  | c :: l' =>
      match rtrim l' with
      | [] => if is_blank c then [] else [c]
      | r => c :: r
      end
  end.

(** [s.strip()] *)
Definition strip (s : string) : string := flatten (ltrim (rtrim (chunks s))).

(** [v.strip()]: only a [str] has the method. *)
Definition py_strip (v : Json) : Outcome string :=
  match v with
  | JStr s => Returns (strip s)
  | _ => Raises AttributeError
  end.

(** [" ".join([a, b])] *)
Definition join_space (a b : string) : string := a +:+ " " +:+ b.

End Py.
Export Py.

(** ** The world the provider types act on *)

(** What leaves the process: every HTTP request, and every call on the shared
    cache or the provider table, in the order in which it happens. *)
Inductive Event : Type :=
  | EvRequestsGet (url : string) (headers : list (string * string))
  | EvFetchToken (url code client_secret : string)
  | EvOAuthGet (url : string)
  | EvCacheInvalidate (key : string)
  | EvPersist.

Definition is_jwks_fetch (jwks_url : string) (e : Event) : bool :=
  match e with
  | EvRequestsGet url _ => String.eqb url jwks_url
  | _ => false
  end.

(** [requests.Response] *)
Record Response : Type := mkResponse {
  status_code : Z;
  json_body : Outcome Json;          (* what [resp.json()] does *)
}.

(** The columns of the provider models of [.models] the methods read. *)
Record AuthProviderModel : Type := mkProvider {
  instance_id : Z;
  client_id : string;
  secret : string;
  base_url : string;
  authorization_url : string;
  access_token_url : string;
  user_info_url : string;
  jwks_url : string;
  issuer : string;
  use_id_token : bool;
  email_attr_key : string;
  first_name_attr_key : string;
  last_name_attr_key : string;
}.

(** [baserow.core.auth_provider.types.UserInfo] *)
Record UserInfo : Type := mkUserInfo {
  name : Json;
  email : Json;
  workspace_invitation_token : Json;
  language : Json;
}.

Record WellKnownUrls : Type := mkWellKnownUrls {
  wk_authorization_url : Json;
  wk_access_token_url : Json;
  wk_user_info_url : Json;
  wk_jwks_url : Json;
  wk_issuer : Json;
}.

(** [dataclasses.asdict] *)
Definition asdict (u : WellKnownUrls) : list (string * Json) :=
  [("authorization_url", wk_authorization_url u);
   ("access_token_url", wk_access_token_url u);
   ("user_info_url", wk_user_info_url u);
   ("jwks_url", wk_jwks_url u);
   ("issuer", wk_issuer u)].

(** [SCOPE] is a list of strings, or one string for GitHub. *)
Inductive Scope : Type :=
  | ScopeList (l : list string)
  | ScopeStr (s : string).

(** The fields of [requests_oauthlib.OAuth2Session] the module sets. *)
Record OAuth2Session : Type := mkOAuth2Session {
  oa_client_id : string;
  oa_redirect_uri : string;
  oa_scope : Scope;
  oa_state : option string;
  oa_facebook_fix : bool;
}.

Record RSAPublicKey : Type := mkKey { rsa_n : Z; rsa_e : Z }.

(** - [session]: the Django session object the methods receive; the module
      stores strings only under its two keys;
    - [jwks_cache]: the entries of [global_cache];
    - [providers]: the rows of the provider table;
    - [tokens_drawn]: how many random tokens [generate_token] has produced;
    - [events]: the trace. *)
Record World : Type := mkWorld {
  session : gmap string string;
  jwks_cache : gmap string Json;
  providers : gmap Z AuthProviderModel;
  tokens_drawn : nat;
  events : list Event;
}.

(** The libraries and the remote side.  A reply may depend on everything
    that happened before, so each remote call receives the trace. *)
Class Env : Type := {
  json_loads : string -> Outcome Json;             (* [json.loads] of a text *)
  json_dumps : Json -> string;
  py_repr : Json -> string;                        (* [str(v)] of a non-string *)
  generate_token : nat -> string;                  (* oauthlib's random token *)
  prepare_request_uri : OAuth2Session -> string -> string -> string;
  get_callback_url : AuthProviderModel -> string;  (* urljoin + reverse *)
  requests_get : list Event -> string -> list (string * string) -> Outcome Response;
  oauth_fetch_token :                              (* an [OAuth2Token] dict *)
    list Event -> OAuth2Session -> string -> string -> string ->
    Outcome (list (string * Json));
  oauth_get :
    list Event -> OAuth2Session -> list (string * Json) -> string ->
    Outcome Response;
  jwt_get_unverified_header : Json -> Outcome (list (string * Json));
  from_jwk : Json -> Outcome RSAPublicKey;
  jwt_decode :                                     (* token, key, audience, issuer *)
    Json -> RSAPublicKey -> string -> string -> Outcome (list (string * Json));
  super_create :
    list (string * Json) -> gmap Z AuthProviderModel ->
    Outcome AuthProviderModel * gmap Z AuthProviderModel;
  super_update :
    AuthProviderModel -> list (string * Json) -> gmap Z AuthProviderModel ->
    Outcome AuthProviderModel * gmap Z AuthProviderModel;
}.

(** ** The monad of the methods *)

Definition M (A : Type) : Type := World -> Outcome A * World.

Definition ret {A} (a : A) : M A := fun w => (Returns a, w).
Definition raise {A} (e : PyExc) : M A := fun w => (Raises e, w).
Definition bind {A B} (m : M A) (k : A -> M B) : M B :=
  fun w => match m w with
           | (Returns a, w') => k a w'
           | (Raises e, w') => (Raises e, w')
           end.
Definition lift {A} (o : Outcome A) : M A := fun w => (o, w).

(** [try: body  except Exception as exc: handler exc].  What [body] did to
    the world before it raised stays done. *)
Definition try_except {A} (body : M A) (handler : PyExc -> M A) : M A :=
  fun w => match body w with
           | (Returns a, w') => (Returns a, w')
           | (Raises e, w') => handler e w'
           end.

#[global] Instance M_ret : MRet M := @ret.
#[global] Instance M_bind : MBind M := fun A B k m => bind m k.

Definition set_session (f : gmap string string -> gmap string string) (w : World) : World :=
  mkWorld (f (session w)) (jwks_cache w) (providers w) (tokens_drawn w) (events w).
Definition set_jwks_cache (f : gmap string Json -> gmap string Json) (w : World) : World :=
  mkWorld (session w) (f (jwks_cache w)) (providers w) (tokens_drawn w) (events w).
Definition set_providers (p : gmap Z AuthProviderModel) (w : World) : World :=
  mkWorld (session w) (jwks_cache w) p (tokens_drawn w) (events w).
Definition draw_token (w : World) : World :=
  mkWorld (session w) (jwks_cache w) (providers w) (S (tokens_drawn w)) (events w).
Definition record (e : Event) (w : World) : World :=
  mkWorld (session w) (jwks_cache w) (providers w) (tokens_drawn w) (events w ++ [e]).

(** *** The session: [k in session], [session.pop(k)], [session[k] = v] *)

Definition session_contains (k : string) : M bool :=
  fun w => (Returns (bool_decide (is_Some (session w !! k))), w).

Definition session_pop (k : string) : M string :=
  fun w => match session w !! k with
           | Some v => (Returns v, set_session (delete k) w)
           | None => (Raises (KeyError k), w)
           end.

Definition session_set (k v : string) : M unit :=
  fun w => (Returns tt, set_session (<[k := v]>) w).

(** ** The libraries *)

Section Libraries.
Context `{Env}.

(** [str(v)], as [format] and f-strings apply it. *)
Definition py_str (v : Json) : string :=
  match v with
  | JStr s => s
  | JNull => "None"
  | JBool true => "True"
  | JBool false => "False"
  | _ => py_repr v
  end.

(** [OAuth2Session(client_id, redirect_uri=..., scope=..., state=...)] *)
Definition new_oauth2_session (client_id redirect_uri : string) (scope : Scope)
    (state : option string) : OAuth2Session :=
  mkOAuth2Session client_id redirect_uri scope state false.

(** [requests_oauthlib.compliance_fixes.facebook_compliance_fix] registers
    its hooks on the client and returns it. *)
Definition facebook_compliance_fix (oauth : OAuth2Session) : OAuth2Session :=
  mkOAuth2Session (oa_client_id oauth) (oa_redirect_uri oauth) (oa_scope oauth)
                  (oa_state oauth) true.

(** [OAuth2Session.authorization_url(url)].  The client was built with
    [self.state = state or generate_token]; [new_state] calls [self.state()]
    and, when that is the supplied string and not the generator, re-uses the
    supplied state.  So a token is drawn only when no (non-empty) state was
    given to the constructor. *)
Definition oauth_authorization_url (oauth : OAuth2Session) (url : string)
  : M (string * string) :=
  fun w =>
    match oa_state oauth with
    | Some st =>
        if truthy (JStr st)
        then (Returns (prepare_request_uri oauth url st, st), w)
        else let st' := generate_token (tokens_drawn w) in
             (Returns (prepare_request_uri oauth url st', st'), draw_token w)
    | None =>
        let st' := generate_token (tokens_drawn w) in
        (Returns (prepare_request_uri oauth url st', st'), draw_token w)
    end.

(** [oauth.fetch_token(url, code=code, client_secret=secret)] *)
Definition fetch_token (oauth : OAuth2Session) (url code client_secret : string)
  : M (list (string * Json)) :=
  fun w => (oauth_fetch_token (events w) oauth url code client_secret,
            record (EvFetchToken url code client_secret) w).

(** [oauth.get(url)], with the token [fetch_token] left on the client. *)
Definition oauth_session_get (oauth : OAuth2Session) (token : list (string * Json))
    (url : string) : M Response :=
  fun w => (oauth_get (events w) oauth token url, record (EvOAuthGet url) w).

(** [requests.get(url, headers=headers)] *)
Definition requests_get_call (url : string) (headers : list (string * string))
  : M Response :=
  fun w => (requests_get (events w) url headers, record (EvRequestsGet url headers) w).

(** [resp.raise_for_status()] *)
Definition raise_for_status (resp : Response) : Outcome unit :=
  if (400 <=? status_code resp) && (status_code resp <? 600)
  then Raises (Upstream "HTTPError")
  else Returns tt.

(** Modelled from the spec: [baserow.core.cache.global_cache], whose source is
    not part of the files at hand.  The spec describes it as a generic
    memoization service, [get(key, default_factory, ttl)] and
    [invalidate(key)]: a hit returns the stored value; a miss calls the
    factory, stores what it returns and returns it; [invalidate] drops the
    entry.  Expiry after the time-to-live is the passing of time and is not
    modelled. *)
Definition global_cache_get (key : string) (default : M Json) : M Json :=
  fun w =>
    match jwks_cache w !! key with
    | Some v => (Returns v, w)
    | None =>
        match default w with
        | (Returns v, w') => (Returns v, set_jwks_cache (<[key := v]>) w')
        | (Raises e, w') => (Raises e, w')
        end
    end.

Definition global_cache_invalidate (key : string) : M unit :=
  fun w => (Returns tt, record (EvCacheInvalidate key) (set_jwks_cache (delete key) w)).

(** [super().create] and [super().update], called with keyword arguments, of
    [AuthProviderType]: the only calls that write the provider table. *)
Definition call_super_create (kwargs : list (string * Json)) : M AuthProviderModel :=
  fun w => let '(r, p) := super_create kwargs (providers w) in
           (r, record EvPersist (set_providers p w)).

Definition call_super_update (provider : AuthProviderModel)
    (kwargs : list (string * Json)) : M AuthProviderModel :=
  fun w => let '(r, p) := super_update provider kwargs (providers w) in
           (r, record EvPersist (set_providers p w)).

(** Two keyword dictionaries unpacked into one call: a keyword given twice
    is a [TypeError]. *)
Definition kwargs_merge (a b : list (string * Json)) : Outcome (list (string * Json)) :=
  if existsb (fun kv => match dict_lookup (fst kv) a with
                        | Some _ => true
                        | None => false
                        end) b
  then Raises TypeError
  else Returns (a ++ b).

End Libraries.

(** ** The provider types *)

(** The concrete classes of the module; a method that a class overrides is a
    [match] on [self]. *)
Inductive ProviderType : Type :=
  | Google
  | GitHub
  | GitLab
  | Facebook
  | OpenIdConnect.

Definition SCOPE (self : ProviderType) : Scope :=
  match self with
  | Google => ScopeList ["openid";
                         "https://www.googleapis.com/auth/userinfo.email";
                         "https://www.googleapis.com/auth/userinfo.profile"]
  | GitHub => ScopeStr "read:user,user:email"
  | GitLab => ScopeList ["read_user"]
  | Facebook => ScopeList ["email"]
  | OpenIdConnect => ScopeList ["openid"; "email"; "profile"]
  end.

Definition EMAILS_URL : string := "https://api.github.com/user/emails".
Definition FACEBOOK_AUTHORIZATION_URL : string := "https://www.facebook.com/dialog/oauth".

Module BaseOAuth2AuthProviderMixin.
Section Methods.
Context `{Env}.

Definition get_base_url (self : ProviderType) (instance : AuthProviderModel) : string :=
  match self with
  | Google => "https://accounts.google.com/o/oauth2/v2/auth"
  | GitHub => "https://github.com/login/oauth/authorize"
  | GitLab => base_url instance +:+ "/oauth/authorize"
  | Facebook => FACEBOOK_AUTHORIZATION_URL
  | OpenIdConnect => authorization_url instance
  end.

Definition get_user_info_url (self : ProviderType) (instance : AuthProviderModel) : string :=
  match self with
  | Google => "https://www.googleapis.com/oauth2/v1/userinfo"
  | GitHub => "https://api.github.com/user"
  | GitLab => base_url instance +:+ "/api/v4/user"
  | Facebook => "https://graph.facebook.com/me?fields=id,email,name"
  | OpenIdConnect => user_info_url instance
  end.

Definition get_access_token_url (self : ProviderType) (instance : AuthProviderModel) : string :=
  match self with
  | Google => "https://www.googleapis.com/oauth2/v4/token"
  | GitHub => "https://github.com/login/oauth/access_token"
  | GitLab => base_url instance +:+ "/oauth/token"
  | Facebook => "https://graph.facebook.com/oauth/access_token"
  | OpenIdConnect => access_token_url instance
  end.

Definition get_jwks_url (self : ProviderType) (instance : AuthProviderModel) : Outcome string :=
  match self with
  | OpenIdConnect => Returns (jwks_url instance)
  | _ => Raises NotImplementedError
  end.

Definition get_issuer (self : ProviderType) (instance : AuthProviderModel) : Outcome string :=
  match self with
  | OpenIdConnect => Returns (issuer instance)
  | _ => Raises NotImplementedError
  end.

Definition before_fetch_token (self : ProviderType) (oauth : OAuth2Session) : OAuth2Session :=
  match self with
  | Facebook => facebook_compliance_fix oauth
  | _ => oauth
  end.

(** [query_params or {}] *)
Definition or_empty_dict (query_params : Json) : Json :=
  if truthy query_params then query_params else JDict [].

Definition push_request_data_to_session (query_params : Json) : M unit :=
  session_set "oauth_request_data" (json_dumps (or_empty_dict query_params)).

Definition pop_request_data_from_session : M Json :=
  try_except
    (v ← session_pop "oauth_request_data";
     lift (json_loads v))
    (fun exc => match exc with
                | KeyError _ | JSONDecodeError => ret (JDict [])
                | _ => raise exc
                end).

Definition get_oauth_session (self : ProviderType) (instance : AuthProviderModel)
  : M OAuth2Session :=
  let redirect_uri := get_callback_url instance in
  has_state ← session_contains "oauth_state";
  if (has_state : bool)
  then st ← session_pop "oauth_state";
       ret (new_oauth2_session (client_id instance) redirect_uri (SCOPE self) (Some st))
  else ret (new_oauth2_session (client_id instance) redirect_uri (SCOPE self) None).

Definition get_authorization_url (self : ProviderType) (instance : AuthProviderModel)
    (query_params : Json) : M string :=
  match self with
  | Facebook =>
      oauth ← get_oauth_session self instance;
      let oauth := facebook_compliance_fix oauth in
      r ← oauth_authorization_url oauth FACEBOOK_AUTHORIZATION_URL;
      session_set "oauth_state" (snd r);;
      push_request_data_to_session query_params;;
      ret (fst r)
  | _ =>
      oauth ← get_oauth_session self instance;
      r ← oauth_authorization_url oauth (get_base_url self instance);
      session_set "oauth_state" (snd r);;
      push_request_data_to_session query_params;;
      ret (fst r)
  end.

Definition get_oauth_token_and_response (self : ProviderType)
    (instance : AuthProviderModel) (code : string)
  : M (list (string * Json) * Json) :=
  try_except
    (oauth ← get_oauth_session self instance;
     let oauth := before_fetch_token self oauth in
     token ← fetch_token oauth (get_access_token_url self instance) code (secret instance);
     resp ← oauth_session_get oauth token (get_user_info_url self instance);
     body ← lift (json_body resp);
     ret (token, body))
    (fun exc => raise (AuthFlowError None)).

Definition get_user_info_from_oauth_json_response (oauth_response_data : Json)
  : M (UserInfo * Json) :=
  request_data ← pop_request_data_from_session;
  name ← lift (py_get oauth_response_data "name" (JStr ""));
  stripped ← lift (py_strip name);
  name ← (if String.eqb stripped ""
          then lift (py_get oauth_response_data "email" JNull)
          else ret name);
  email ← lift (py_get oauth_response_data "email" JNull);
  token ← lift (py_get request_data "workspace_invitation_token" JNull);
  lang ← lift (py_get request_data "language" JNull);
  original ← lift (py_get request_data "original" (JStr ""));
  ret (mkUserInfo name email token lang, original).

Definition get_user_info (self : ProviderType) (instance : AuthProviderModel)
    (code : string) : M (UserInfo * Json) :=
  r ← get_oauth_token_and_response self instance code;
  get_user_info_from_oauth_json_response (snd r).

End Methods.
End BaseOAuth2AuthProviderMixin.

Module GitHubAuthProviderType.
Import BaseOAuth2AuthProviderMixin.
Section Methods.
Context `{Env}.

(** The test of the comprehension:
    [not isinstance(e, dict) or e.get("primary")]. *)
Definition is_primary (e : Json) : bool :=
  negb (is_dict e) ||
  match py_get e "primary" JNull with
  | Returns v => truthy v
  | Raises _ => false
  end.

Definition get_email (headers : list (string * string)) : M Json :=
  resp ← requests_get_call EMAILS_URL headers;
  lift (raise_for_status resp);;
  emails ← lift (json_body resp);
  if (status_code resp =? 200) && truthy emails
  then
    first ← lift (py_first emails);
    items ← lift (py_iter emails);
    let primary_emails := List.filter is_primary items in
    let email := match primary_emails with
                 | e :: _ => e
                 | [] => first
                 end in
    if is_dict email
    then lift (py_get email "email" (JStr ""))
    else ret email
  else ret JNull.

Definition get_user_info (instance : AuthProviderModel) (code : string)
  : M (UserInfo * Json) :=
  r ← get_oauth_token_and_response GitHub instance code;
  json_response ←
    try_except
      (let access_token :=
         match dict_lookup "access_token" (fst r) with
         | Some v => v
         | None => JNull
         end in
       email ← get_email [("Authorization", "token " +:+ py_str access_token)];
       lift (py_setitem (snd r) "email" email))
      (fun exc => raise (AuthFlowError None));
  get_user_info_from_oauth_json_response json_response.

End Methods.
End GitHubAuthProviderType.

Module OpenIdConnectAuthProviderTypeMixin.
Import BaseOAuth2AuthProviderMixin.
Section Methods.
Context `{Env}.

Definition get_wellknown_urls (base_url : Json) : M WellKnownUrls :=
  try_except
    (let wellknown_url := py_str base_url +:+ "/.well-known/openid-configuration" in
     resp ← requests_get_call wellknown_url [];
     json_response ← lift (json_body resp);
     a ← lift (py_getitem json_response "authorization_endpoint");
     t ← lift (py_getitem json_response "token_endpoint");
     u ← lift (py_getitem json_response "userinfo_endpoint");
     j ← lift (py_getitem json_response "jwks_uri");
     i ← lift (py_getitem json_response "issuer");
     ret (mkWellKnownUrls a t u j i))
    (fun exc => raise InvalidProviderUrl).

Definition create (values : list (string * Json)) : M AuthProviderModel :=
  base ← lift (py_getitem (JDict values) "base_url");
  urls ← get_wellknown_urls base;
  kwargs ← lift (kwargs_merge values (asdict urls));
  call_super_create kwargs.

Definition update (provider : AuthProviderModel) (values : list (string * Json))
  : M AuthProviderModel :=
  match dict_lookup "base_url" values with
  | Some base =>
      if truthy base
      then urls ← get_wellknown_urls base;
           kwargs ← lift (kwargs_merge values (asdict urls));
           call_super_update provider kwargs
      else call_super_update provider values
  | None => call_super_update provider values
  end.

Definition get_user_info_from_user_info_endpoint (instance : AuthProviderModel)
    (oauth_response_data : Json) : Outcome (Json * Json) :=
  email ← py_get oauth_response_data (email_attr_key instance) JNull;
  first ← py_get oauth_response_data (first_name_attr_key instance) (JStr "");
  first_name ← py_strip first;
  last_name ← (if truthy (JStr (last_name_attr_key instance))
               then last ← py_get oauth_response_data (last_name_attr_key instance) (JStr "");
                    py_strip last
               else Returns "");
  let name := strip (join_space first_name last_name) in
  Returns (email, if String.eqb name "" then email else JStr name).

(** The loop over [jwks["keys"]]: the first entry whose ["kid"] equals [kid]
    is converted and the loop stops. *)
Fixpoint find_matching_key (kid : Json) (keys : list Json)
  : Outcome (option RSAPublicKey) :=
  match keys with
  | [] => Returns None
  | jwk :: rest =>
      k ← py_getitem jwk "kid";
      if py_eq k kid
      then key ← from_jwk jwk; Returns (Some key)
      else find_matching_key kid rest
  end.

(** [_get_verifying_key(instance, id_token, retry_on_fail)].  The method calls
    itself once, with [retry_on_fail=False]; [retries] counts the retries
    that are left, [1] for [True] and [0] for [False]. *)
Fixpoint _get_verifying_key_from (retries : nat) (instance : AuthProviderModel)
    (id_token : Json) : M RSAPublicKey :=
  jwks_url ← lift (get_jwks_url OpenIdConnect instance);
  let cache_key := "enterprise_oidc_jwks_result_" +:+ jwks_url in
  jwks ← try_except
           (global_cache_get cache_key
              (resp ← requests_get_call jwks_url []; lift (json_body resp)))
           (fun exc => raise (AuthFlowError
                         (Some ("Failed to call JWK endpoint with URL " +:+ jwks_url))));
  unverified_header ← lift (jwt_get_unverified_header id_token);
  kid ← lift (py_getitem (JDict unverified_header) "kid");
  keys ← lift (py_getitem jwks "keys");
  items ← lift (py_iter keys);
  key ← lift (find_matching_key kid items);
  match key with
  | Some k => ret k
  | None =>
      match retries with
      | S r =>
          global_cache_invalidate cache_key;;
          _get_verifying_key_from r instance id_token
      | O => raise (AuthFlowError
                      (Some ("Matching JWK not found for kid: " +:+ py_str kid)))
      end
  end.

Definition _get_verifying_key (instance : AuthProviderModel) (id_token : Json)
    (retry_on_fail : bool) : M RSAPublicKey :=
  _get_verifying_key_from (if retry_on_fail then 1%nat else 0%nat) instance id_token.

Definition get_user_info_from_id_token (instance : AuthProviderModel)
    (id_token : Json) : M (Json * Json) :=
  key ← _get_verifying_key instance id_token true;
  iss ← lift (get_issuer OpenIdConnect instance);
  decoded_token ← lift (jwt_decode id_token key (client_id instance) iss);
  let decoded_token := JDict decoded_token in
  lift (email ← py_get decoded_token (email_attr_key instance) JNull;
        first ← py_get decoded_token (first_name_attr_key instance) (JStr "");
        first_name ← py_strip first;
        last_name ← (if truthy (JStr (last_name_attr_key instance))
                     then last ← py_get decoded_token (last_name_attr_key instance) (JStr "");
                          py_strip last
                     else Returns "");
        let name := strip (join_space first_name last_name) in
        Returns (email, if String.eqb name "" then email else JStr name)).

Definition get_user_info (instance : AuthProviderModel) (code : string)
  : M (UserInfo * Json) :=
  r ← get_oauth_token_and_response OpenIdConnect instance code;
  let token := fst r in
  let json_response := snd r in
  en ← (if use_id_token instance
        then match dict_lookup "id_token" token with
             | None => raise (AuthFlowError (Some "Id token is missing"))
             | Some id_token => get_user_info_from_id_token instance id_token
             end
        else lift (get_user_info_from_user_info_endpoint instance json_response));
  request_data ← pop_request_data_from_session;
  invitation ← lift (py_get request_data "workspace_invitation_token" JNull);
  lang ← lift (py_get request_data "language" JNull);
  original ← lift (py_get request_data "original" (JStr ""));
  ret (mkUserInfo (snd en) (fst en) invitation lang, original).

End Methods.
End OpenIdConnectAuthProviderTypeMixin.

(** Method resolution: [provider.get_type().get_user_info(...)]. *)
Module ProviderTypes.

Definition get_user_info `{Env} (self : ProviderType) (instance : AuthProviderModel)
    (code : string) : M (UserInfo * Json) :=
  match self with
  | GitHub => GitHubAuthProviderType.get_user_info instance code
  | OpenIdConnect => OpenIdConnectAuthProviderTypeMixin.get_user_info instance code
  | _ => BaseOAuth2AuthProviderMixin.get_user_info self instance code
  end.

End ProviderTypes.

(** ** [OAuth2AuthProviderMixin]: routes and login options *)

(** [path(route, include(urls, namespace=...))] *)
Record UrlPattern : Type := mkUrlPattern {
  route : string;
  namespace : string;
}.

(** A row of [self.model_class]: what [get_login_options] reads of it. *)
Record ProviderRow : Type := mkProviderRow {
  row_id : Z;
  row_name : string;
  row_enabled : bool;
}.

(** One entry of ["items"]. *)
Record LoginItem : Type := mkLoginItem {
  redirect_url : string;
  item_name : string;
  item_type : string;
}.

Record LoginOptions : Type := mkLoginOptions {
  options_type : string;
  items : list LoginItem;
  default_redirect_url : option string;
}.

Module OAuth2AuthProviderMixin.

(** The class attribute [type]. *)
Definition type (self : ProviderType) : string :=
  match self with
  | Google => "google"
  | GitHub => "github"
  | GitLab => "gitlab"
  | Facebook => "facebook"
  | OpenIdConnect => "openid_connect"
  end.

(** [get_api_urls].  The state is the module global
    [_is_url_already_loaded], shared by all the provider types. *)
Definition get_api_urls (self : ProviderType) (_is_url_already_loaded : bool)
  : list UrlPattern * bool :=
  if negb _is_url_already_loaded
  then ([mkUrlPattern "sso/oauth2/" "enterprise_sso_oauth2"], true)
  else ([], _is_url_already_loaded).

(** [get_login_options].  [is_sso_feature_active] is the answer of the
    licence check, [login_url] is [urljoin(OAUTH_BACKEND_URL, reverse(...))]
    for an instance id, and [table] holds the rows of [self.model_class]. *)
Definition get_login_options (is_sso_feature_active : bool)
    (login_url : Z -> string) (table : list ProviderRow) (self : ProviderType)
  : option LoginOptions :=
  if negb is_sso_feature_active then None
  else
    let instances := List.filter row_enabled table in
    match instances with
    | [] => None
    | _ =>
        let items :=
          fold_left
            (fun items instance =>
               items ++ [mkLoginItem (login_url (row_id instance))
                                     (row_name instance) (type self)])
            instances [] in
        let default_redirect_url :=
          if (List.length items =? 1)%nat
          then match items with
               | item :: _ => Some (redirect_url item)
               | [] => None
               end
          else None in
        Some (mkLoginOptions (type self) items default_redirect_url)
    end.

End OAuth2AuthProviderMixin.

(** The provider types are asked for their routes one after the other. *)
Fixpoint collect_api_urls (types : list ProviderType) (loaded : bool)
  : list UrlPattern * bool :=
  match types with
  | [] => ([], loaded)
  | self :: rest =>
      let '(urls, loaded') := OAuth2AuthProviderMixin.get_api_urls self loaded in
      let '(more, loaded'') := collect_api_urls rest loaded' in
      (urls ++ more, loaded'')
  end.

(** ** Concrete environments

    Small instances of [Env], to run the methods on concrete inputs. *)

Module Demo.

(** A text that stands for one nested deeper than the decoder can follow. *)
Definition deeply_nested : string := "[[[[[[[[[[[[[[[[ ... ]]]]]]]]]]]]]]]]".

Definition loads (s : string) : Outcome Json :=
  if String.eqb s "{}" then Returns (JDict [])
  else if String.eqb s "[]" then Returns (JList [])
  else if String.eqb s "null" then Returns JNull
  else if String.eqb s deeply_nested then Raises RecursionError
  else Raises JSONDecodeError.

Definition dumps (v : Json) : string :=
  match v with
  | JDict [] => "{}"
  | JList [] => "[]"
  | JNull => "null"
  | JStr s => s
  | _ => "{...}"
  end.

Definition token_of (n : nat) : string :=
  String (ascii_of_nat (97 + n)) "-token".

Definition uri (oauth : OAuth2Session) (url state : string) : string :=
  url +:+ "?client_id=" +:+ oa_client_id oauth +:+ "&state=" +:+ state.

Definition key_of (jwk : Json) : Outcome RSAPublicKey :=
  match py_getitem jwk "n" with
  | Returns (JNum n) => Returns (mkKey n 65537)
  | _ => Raises (Upstream "InvalidKeyError")
  end.

Definition instance : AuthProviderModel :=
  {| instance_id := 1; client_id := "client"; secret := "s3cret";
     base_url := "https://idp.example";
     authorization_url := "https://idp.example/authorize";
     access_token_url := "https://idp.example/token";
     user_info_url := "https://idp.example/userinfo";
     jwks_url := "https://idp.example/jwks";
     issuer := "https://idp.example";
     use_id_token := true;
     email_attr_key := "email";
     first_name_attr_key := "given_name";
     last_name_attr_key := "family_name" |}.

(** The environment with the given remote side: [rg] answers
    [requests.get], [ft] the token endpoint, [og] the user-info endpoint,
    [hdr] and [dec] are the JWT library. *)
Definition env
    (rg : list Event -> string -> list (string * string) -> Outcome Response)
    (ft : Outcome (list (string * Json)))
    (og : Outcome Response)
    (hdr : Json -> Outcome (list (string * Json)))
    (dec : Outcome (list (string * Json))) : Env :=
  {| json_loads := loads;
     json_dumps := dumps;
     py_repr := fun _ => "<repr>";
     generate_token := token_of;
     prepare_request_uri := uri;
     get_callback_url := fun _ => "https://baserow.example/api/sso/oauth2/callback/1/";
     requests_get := rg;
     oauth_fetch_token := fun _ _ _ _ _ => ft;
     oauth_get := fun _ _ _ _ => og;
     jwt_get_unverified_header := hdr;
     from_jwk := key_of;
     jwt_decode := fun _ _ _ _ => dec;
     super_create := fun _ p =>
       (Returns instance, <[instance_id instance := instance]> p);
     super_update := fun provider _ p =>
       (Returns provider, <[instance_id provider := provider]> p) |}.

Definition no_requests : list Event -> string -> list (string * string) -> Outcome Response :=
  fun _ _ _ => Raises (Upstream "ConnectionError").

Definition no_header : Json -> Outcome (list (string * Json)) :=
  fun _ => Raises (Upstream "DecodeError").

Definition world (s : gmap string string) : World :=
  mkWorld s ∅ ∅ 0 [].

(** A provider that accepts the code and answers the user-info request. *)
Definition alice : Json :=
  JDict [("name", JStr "Alice"); ("email", JStr "alice@example.com")].

Definition accepting : Env :=
  env no_requests
      (Returns [("access_token", JStr "at")])
      (Returns (mkResponse 200 (Returns alice)))
      no_header
      (Raises (Upstream "DecodeError")).

(** A provider whose token endpoint rejects the code. *)
Definition rejecting : Env :=
  env no_requests
      (Raises (Upstream "invalid_grant: code expired for client 42"))
      (Raises (Upstream "unreachable"))
      no_header
      (Raises (Upstream "DecodeError")).

(** GitHub: the code is accepted, the user has a name, and the e-mail
    endpoint answers 200 with the list [es]. *)
Definition github (es : list Json) : Env :=
  env (fun _ _ _ => Returns (mkResponse 200 (Returns (JList es))))
      (Returns [("access_token", JStr "at")])
      (Returns (mkResponse 200 (Returns (JDict [("name", JStr "Octo Cat")]))))
      no_header
      (Raises (Upstream "DecodeError")).

Definition two_emails : list Json :=
  [JDict [("email", JStr "old@example.com"); ("primary", JBool false)];
   JDict [("email", JStr "main@example.com"); ("primary", JBool true)]].

(** An identity provider whose discovery document has no ["jwks_uri"]. *)
Definition discovery_without_jwks : Json :=
  JDict [("authorization_endpoint", JStr "https://idp.example/authorize");
         ("token_endpoint", JStr "https://idp.example/token");
         ("userinfo_endpoint", JStr "https://idp.example/userinfo");
         ("issuer", JStr "https://idp.example")].

Definition incomplete_discovery : Env :=
  env (fun _ _ _ => Returns (mkResponse 200 (Returns discovery_without_jwks)))
      (Raises (Upstream "unused"))
      (Raises (Upstream "unused"))
      no_header
      (Raises (Upstream "DecodeError")).

Definition new_values : list (string * Json) :=
  [("name", JStr "Example IdP"); ("base_url", JStr "https://idp.example")].

(** Key rotation: the cache still holds the key ["old"], the identity
    provider now publishes ["new"], and the ID token was signed with
    ["new"]. *)
Definition jwks_with (kid : string) (n : Z) : Json :=
  JDict [("keys", JList [JDict [("kid", JStr kid); ("n", JNum n)]])].

Definition signed_with (kid : string) : Json -> Outcome (list (string * Json)) :=
  fun _ => Returns [("alg", JStr "RS256"); ("kid", JStr kid)].

Definition rotated : Env :=
  env (fun _ _ _ => Returns (mkResponse 200 (Returns (jwks_with "new" 77))))
      (Raises (Upstream "unused"))
      (Raises (Upstream "unused"))
      (signed_with "new")
      (Raises (Upstream "DecodeError")).

(** The same, for a token signed with a key nobody publishes. *)
Definition unknown_key : Env :=
  env (fun _ _ _ => Returns (mkResponse 200 (Returns (jwks_with "new" 77))))
      (Raises (Upstream "unused"))
      (Raises (Upstream "unused"))
      (signed_with "forged")
      (Raises (Upstream "DecodeError")).

Definition stale_cache : World :=
  mkWorld ∅ {["enterprise_oidc_jwks_result_https://idp.example/jwks" := jwks_with "old" 33]}
          ∅ 0 [].

End Demo.

(** ** What the claims speak about *)

Section Vocabulary.
Context `{Env}.
Import BaseOAuth2AuthProviderMixin.

(** The OAuth client the callback works with in world [w]: its state is
    whatever the session holds under ["oauth_state"], if anything. *)
Definition callback_client (self : ProviderType) (instance : AuthProviderModel)
    (w : World) : OAuth2Session :=
  before_fetch_token self
    (new_oauth2_session (client_id instance) (get_callback_url instance)
                        (SCOPE self) (session w !! "oauth_state")).

(** The trace once the token request has been sent. *)
Definition after_fetch_token (self : ProviderType) (instance : AuthProviderModel)
    (code : string) (w : World) : list Event :=
  events w ++ [EvFetchToken (get_access_token_url self instance) code (secret instance)].

(** What the provider answers to the token exchange followed by the
    user-info request, in world [w]. *)
Definition provider_answer (self : ProviderType) (instance : AuthProviderModel)
    (code : string) (w : World) : Outcome (list (string * Json) * Json) :=
  let oauth := callback_client self instance w in
  token ← oauth_fetch_token (events w) oauth
            (get_access_token_url self instance) code (secret instance);
  resp ← oauth_get (after_fetch_token self instance code w) oauth token
           (get_user_info_url self instance);
  body ← json_body resp;
  Returns (token, body).

(** An entry of GitHub's e-mail list that is an object whose ["primary"]
    field is set. *)
Definition flagged_primary (e : Json) : bool :=
  match e with
  | JDict d => match dict_lookup "primary" d with
               | Some v => truthy v
               | None => false
               end
  | _ => false
  end.

(** The address an entry of the list carries. *)
Definition entry_email (e : Json) : Json :=
  match e with
  | JDict d => default (JStr "") (dict_lookup "email" d)
  | _ => e
  end.

(** The user-info response has a textual ["name"], or none. *)
Definition name_is_text (d : list (string * Json)) : Prop :=
  dict_lookup "name" d = None ∨ ∃ s, dict_lookup "name" d = Some (JStr s).

(** Whatever the session holds under ["oauth_request_data"] is read by
    [json.loads] as a JSON object, which is what
    [push_request_data_to_session] stores for a dictionary of query
    parameters, or is rejected by it as not being JSON. *)
Definition request_data_is_dict (w : World) : Prop :=
  ∀ s, session w !! "oauth_request_data" = Some s ->
       json_loads s = Raises JSONDecodeError ∨ ∃ d, json_loads s = Returns (JDict d).

(** The exceptions [pop_request_data_from_session] catches. *)
Definition caught_by_pop (e : PyExc) : bool :=
  match e with
  | KeyError _ | JSONDecodeError => true
  | _ => false
  end.

(** [json.loads] gets through whatever the session holds under
    ["oauth_request_data"]: it returns a value or rejects the text as not
    being JSON. *)
Definition request_data_readable (w : World) : Prop :=
  ∀ s e, session w !! "oauth_request_data" = Some s ->
         json_loads s = Raises e -> caught_by_pop e = true.

(** The headers of the request to GitHub's e-mail endpoint. *)
Definition github_headers (token : list (string * Json)) : list (string * string) :=
  [("Authorization", "token " +:+ py_str (default JNull (dict_lookup "access_token" token)))].

(** A list of characters that [chunks] cuts again as it is. *)
Definition parsed (l : list string) : Prop := chunks (flatten l) = l.

(** The characters of a text without the blank ones at both ends. *)
Definition trimmed (s : string) : list string := ltrim (rtrim (chunks s)).

(** The claim [k] of a claim set is a string, or is not there. *)
Definition text_or_absent (d : list (string * Json)) (k : string) : Prop :=
  dict_lookup k d = None ∨ ∃ s, dict_lookup k d = Some (JStr s).

(** The text of claim [k], the empty string when it is not there. *)
Definition claim_text (d : list (string * Json)) (k : string) : string :=
  match dict_lookup k d with
  | Some (JStr s) => s
  | _ => ""
  end.

(** The trimmed first and last name a claim set gives for a provider. *)
Definition first_name_of (instance : AuthProviderModel) (d : list (string * Json))
  : string :=
  strip (claim_text d (first_name_attr_key instance)).

Definition last_name_of (instance : AuthProviderModel) (d : list (string * Json))
  : string :=
  if String.eqb (last_name_attr_key instance) "" then ""
  else strip (claim_text d (last_name_attr_key instance)).

Definition email_of (instance : AuthProviderModel) (d : list (string * Json)) : Json :=
  default JNull (dict_lookup (email_attr_key instance) d).

(** The display name the specification describes: first and last name
    joined by one space and trimmed, the e-mail when nothing is left. *)
Definition display_name (instance : AuthProviderModel) (d : list (string * Json))
  : Json :=
  let joined := strip (join_space (first_name_of instance d) (last_name_of instance d)) in
  if String.eqb joined "" then email_of instance d else JStr joined.

(** The address of the discovery document of [base_url]. *)
Definition wellknown_url (base_url : Json) : string :=
  py_str base_url +:+ "/.well-known/openid-configuration".

Definition required_endpoint_fields : list string :=
  ["authorization_endpoint"; "token_endpoint"; "userinfo_endpoint"; "jwks_uri"; "issuer"].

(** Discovery fails in world [w]: the request raises, or its body is not
    JSON, or one of the required fields cannot be read from the document. *)
Definition discovery_fails (w : World) (base_url : Json) : Prop :=
  match requests_get (events w) (wellknown_url base_url) [] with
  | Raises _ => True
  | Returns resp =>
      match json_body resp with
      | Raises _ => True
      | Returns doc =>
          ∃ f e, f ∈ required_endpoint_fields ∧ py_getitem doc f = Raises e
      end
  end.

(** The cache key of a provider's key set. *)
Definition jwks_cache_key (instance : AuthProviderModel) : string :=
  "enterprise_oidc_jwks_result_" +:+ jwks_url instance.

(** The request that fetches a provider's key set. *)
Definition jwks_fetch (instance : AuthProviderModel) : Event :=
  EvRequestsGet (jwks_url instance) [].

(** The entry [jwk] has a key id, and it is not [kid]. *)
Definition other_kid (kid jwk : Json) : Prop :=
  ∃ k, py_getitem jwk "kid" = Returns k ∧ py_eq k kid = false.

(** [kid] is absent from the key set [jwks]. *)
Definition kid_absent (kid jwks : Json) : Prop :=
  ∃ ks, py_getitem jwks "keys" = Returns (JList ks) ∧ Forall (other_kid kid) ks.

(** [jwk] is the first entry of the key set [jwks] whose key id is [kid]. *)
Definition kid_first_at (kid jwks jwk : Json) : Prop :=
  ∃ pre post k,
    py_getitem jwks "keys" = Returns (JList (pre ++ jwk :: post)) ∧
    Forall (other_kid kid) pre ∧
    py_getitem jwk "kid" = Returns k ∧ py_eq k kid = true.

(** The first step of the method: the key set, from the cache or from the
    provider. *)
Definition load_jwks (instance : AuthProviderModel) : M Json :=
  try_except
    (global_cache_get (jwks_cache_key instance)
       (resp ← requests_get_call (jwks_url instance) []; lift (json_body resp)))
    (fun _ => raise (AuthFlowError
                (Some ("Failed to call JWK endpoint with URL " +:+ jwks_url instance)))).

(** Steps 2 and 3: the key id of the token and the matching key. *)
Definition select_key (id_token jwks : Json) : Outcome (Json * option RSAPublicKey) :=
  unverified_header ← jwt_get_unverified_header id_token;
  kid ← py_getitem (JDict unverified_header) "kid";
  keys ← py_getitem jwks "keys";
  items ← py_iter keys;
  key ← OpenIdConnectAuthProviderTypeMixin.find_matching_key kid items;
  Returns (kid, key).

(** How many of the events are requests for the key set at [url]. *)
Definition jwks_fetches (url : string) (l : list Event) : nat :=
  List.length (List.filter (is_jwks_fetch url) l).

(** The CSRF state [get_authorization_url] ends up with in world [w]: the
    one the session already holds, when it holds a non-empty one, and the
    next token of the generator otherwise. *)
Definition csrf_state (w : World) : string :=
  match session w !! "oauth_state" with
  | Some st => if String.eqb st "" then generate_token (tokens_drawn w) else st
  | None => generate_token (tokens_drawn w)
  end.

End Vocabulary.

(** ** More vocabulary *)

Section MoreVocabulary.
Context `{Env}.
Import BaseOAuth2AuthProviderMixin.

(** Whether [get_authorization_url] draws a token from the generator in
    world [w]: it does unless the session holds a non-empty state. *)
Definition draws_token (w : World) : bool :=
  match session w !! "oauth_state" with
  | Some st => String.eqb st ""
  | None => true
  end.

(** The world after [get_authorization_url]. *)
Definition after_redirect (query_params : Json) (w : World) : World :=
  let w0 := set_session (delete "oauth_state") w in
  let w1 := if draws_token w then draw_token w0 else w0 in
  set_session (<["oauth_request_data" := json_dumps (or_empty_dict query_params)]>)
    (set_session (<["oauth_state" := csrf_state w]>) w1).

(** The world after [get_oauth_token_and_response]: the state is gone from
    the session, the token request was sent, and the user-info request was
    sent when the token request was answered. *)
Definition after_exchange (self : ProviderType) (instance : AuthProviderModel)
    (code : string) (w : World) : World :=
  let w1 := record (EvFetchToken (get_access_token_url self instance) code (secret instance))
              (set_session (delete "oauth_state") w) in
  match oauth_fetch_token (events w) (callback_client self instance w)
          (get_access_token_url self instance) code (secret instance) with
  | Returns _ => record (EvOAuthGet (get_user_info_url self instance)) w1
  | Raises _ => w1
  end.

(** The request to GitHub's e-mail endpoint fails: the transport raises, the
    status is an HTTP error, or the body is not JSON. *)
Definition email_request_fails (w : World) (headers : list (string * string)) : Prop :=
  match requests_get (events w) EMAILS_URL headers with
  | Raises _ => True
  | Returns resp =>
      (400 <= status_code resp < 600) ∨ ∃ e, json_body resp = Raises e
  end.

(** The five keyword arguments [create] and [update] add to [values]. *)
Definition discovered_fields : list string :=
  ["authorization_url"; "access_token_url"; "user_info_url"; "jwks_url"; "issuer"].

(** The OAuth client [get_authorization_url] prepares the URL with. *)
Definition redirect_client (self : ProviderType) (instance : AuthProviderModel)
    (w : World) : OAuth2Session :=
  let oauth := new_oauth2_session (client_id instance) (get_callback_url instance)
                 (SCOPE self) (session w !! "oauth_state") in
  match self with
  | Facebook => facebook_compliance_fix oauth
  | _ => oauth
  end.

End MoreVocabulary.

Module DemoMore.

(** A codec that knows the empty object and objects with one language. *)
Definition loads (s : string) : Outcome Json :=
  match s with
  | String "L" l => Returns (JDict [("language", JStr l)])
  | _ => Demo.loads s
  end.

Definition dumps (v : Json) : string :=
  match v with
  | JDict [("language", JStr l)] => String "L" l
  | _ => Demo.dumps v
  end.

(** The environment of [Demo.env] with this codec and the given e-mail
    endpoint. *)
Definition env
    (rg : list Event -> string -> list (string * string) -> Outcome Response)
    (ft : Outcome (list (string * Json)))
    (og : Outcome Response)
    (hdr : Json -> Outcome (list (string * Json)))
    (dec : Outcome (list (string * Json))) : Env :=
  {| json_loads := loads;
     json_dumps := dumps;
     py_repr := fun _ => "<repr>";
     generate_token := Demo.token_of;
     prepare_request_uri := Demo.uri;
     get_callback_url := fun _ => "https://baserow.example/api/sso/oauth2/callback/1/";
     requests_get := rg;
     oauth_fetch_token := fun _ _ _ _ _ => ft;
     oauth_get := fun _ _ _ _ => og;
     jwt_get_unverified_header := hdr;
     from_jwk := Demo.key_of;
     jwt_decode := fun _ _ _ _ => dec;
     super_create := fun _ p =>
       (Returns Demo.instance, <[instance_id Demo.instance := Demo.instance]> p);
     super_update := fun provider _ p =>
       (Returns provider, <[instance_id provider := provider]> p) |}.

Definition accepting : Env :=
  env Demo.no_requests
      (Returns [("access_token", JStr "at")])
      (Returns (mkResponse 200 (Returns Demo.alice)))
      Demo.no_header
      (Raises (Upstream "DecodeError")).

(** GitHub with the e-mail endpoint answering [resp]. *)
Definition github (resp : Outcome Response) (user : Json) : Env :=
  env (fun _ _ _ => resp)
      (Returns [("access_token", JStr "at")])
      (Returns (mkResponse 200 (Returns user)))
      Demo.no_header
      (Raises (Upstream "DecodeError")).

(** An identity provider with a complete discovery document. *)
Definition discovery_document : list (string * Json) :=
  [("authorization_endpoint", JStr "https://idp.example/authorize");
   ("token_endpoint", JStr "https://idp.example/token");
   ("userinfo_endpoint", JStr "https://idp.example/userinfo");
   ("jwks_uri", JStr "https://idp.example/jwks");
   ("issuer", JStr "https://idp.example")].

Definition discovering : Env :=
  env (fun _ _ _ => Returns (mkResponse 200 (Returns (JDict discovery_document))))
      (Raises (Upstream "unused"))
      (Raises (Upstream "unused"))
      Demo.no_header
      (Raises (Upstream "DecodeError")).

(** OpenID Connect: the token endpoint returns an ID token signed with the
    published key ["new"], whose claims are [claims]; the user-info endpoint
    answers [user]. *)
Definition oidc (user : Json) (claims : Outcome (list (string * Json))) : Env :=
  env (fun _ _ _ => Returns (mkResponse 200 (Returns (Demo.jwks_with "new" 77))))
      (Returns [("access_token", JStr "at"); ("id_token", JStr "h.p.s")])
      (Returns (mkResponse 200 (Returns user)))
      (Demo.signed_with "new")
      claims.

Definition endpoint_instance : AuthProviderModel :=
  {| instance_id := 1; client_id := "client"; secret := "s3cret";
     base_url := "https://idp.example";
     authorization_url := "https://idp.example/authorize";
     access_token_url := "https://idp.example/token";
     user_info_url := "https://idp.example/userinfo";
     jwks_url := "https://idp.example/jwks";
     issuer := "https://idp.example";
     use_id_token := false;
     email_attr_key := "email";
     first_name_attr_key := "given_name";
     last_name_attr_key := "family_name" |}.

(** U+00A0, the no-break space, and U+2003, the em space, as encoded; and
    the single byte 160. *)
Definition no_break_space : string :=
  String (ascii_of_nat 194) (String (ascii_of_nat 160) "").

Definition em_space : string :=
  String (ascii_of_nat 226) (String (ascii_of_nat 128) (String (ascii_of_nat 131) "")).

Definition byte_160 : string := String (ascii_of_nat 160) "".

(** The letter a with a grave accent, whose encoding ends with the byte
    160. *)
Definition a_grave : string :=
  String (ascii_of_nat 195) (String (ascii_of_nat 160) "").


Definition rows : list ProviderRow :=
  [mkProviderRow 1 "Corporate" false; mkProviderRow 2 "Partners" true].

Definition login_url (n : Z) : string :=
  match n with
  | 1 => "https://baserow.example/api/sso/oauth2/login/1/"
  | _ => "https://baserow.example/api/sso/oauth2/login/n/"
  end.

End DemoMore.

(** ** Running the monad *)

Lemma bind_returns {A B} (m : M A) (k : A -> M B) w a w' :
  m w = (Returns a, w') -> (m ≫= k) w = k a w'.
Proof. intros E. unfold mbind, M_bind, bind. now rewrite E. Qed.

Lemma bind_raises {A B} (m : M A) (k : A -> M B) w e w' :
  m w = (Raises e, w') -> (m ≫= k) w = (Raises e, w').
Proof. intros E. unfold mbind, M_bind, bind. now rewrite E. Qed.

Lemma try_except_returns {A} (m : M A) h w a w' :
  m w = (Returns a, w') -> try_except m h w = (Returns a, w').
Proof. intros E. unfold try_except. now rewrite E. Qed.

Lemma try_except_raises {A} (m : M A) h w e w' :
  m w = (Raises e, w') -> try_except m h w = h e w'.
Proof. intros E. unfold try_except. now rewrite E. Qed.

Ltac unfold_monad :=
  unfold mbind, mret, M_bind, M_ret, Outcome_bind, Outcome_ret,
         bind, ret, raise, lift, try_except in *.

Section SessionData.
Context `{Env}.
Import BaseOAuth2AuthProviderMixin.

Lemma pop_request_data_absent (w : World) :
  session w !! "oauth_request_data" = None ->
  pop_request_data_from_session w = (Returns (JDict []), w).
Proof.
  intros E. unfold pop_request_data_from_session, session_pop. unfold_monad.
  now rewrite E.
Qed.

Lemma pop_request_data_present (w : World) (s : string) :
  session w !! "oauth_request_data" = Some s ->
  pop_request_data_from_session w =
    (match json_loads s with
     | Returns j => Returns j
     | Raises e => if caught_by_pop e then Returns (JDict []) else Raises e
     end,
     set_session (delete "oauth_request_data") w).
Proof.
  intros E. unfold pop_request_data_from_session, session_pop. unfold_monad.
  rewrite E. destruct (json_loads s) as [j | e]; [reflexivity |].
  now destruct e.
Qed.

Lemma pop_request_data_rejected (w : World) (s : string) :
  session w !! "oauth_request_data" = Some s ->
  json_loads s = Raises JSONDecodeError ->
  pop_request_data_from_session w
    = (Returns (JDict []), set_session (delete "oauth_request_data") w).
Proof. intros E L. now rewrite (pop_request_data_present _ _ E), L. Qed.

Lemma pop_request_data_parsed (w : World) (s : string) (j : Json) :
  session w !! "oauth_request_data" = Some s ->
  json_loads s = Returns j ->
  pop_request_data_from_session w
    = (Returns j, set_session (delete "oauth_request_data") w).
Proof. intros E L. now rewrite (pop_request_data_present _ _ E), L. Qed.

Lemma pop_request_data_dict (w : World) :
  request_data_is_dict w ->
  ∃ rd, pop_request_data_from_session w
        = (Returns (JDict rd), set_session (delete "oauth_request_data") w).
Proof.
  intros Hreq. destruct (session w !! "oauth_request_data") as [s |] eqn:E.
  - destruct (Hreq s E) as [L | [d L]].
    + exists []. now apply (pop_request_data_rejected _ s).
    + exists d. now apply (pop_request_data_parsed _ s).
  - rewrite (pop_request_data_absent _ E). exists []. f_equal.
    unfold set_session. rewrite delete_id by exact E. now destruct w.
Qed.

End SessionData.

Section Claim9.
Context `{Env}.
Import BaseOAuth2AuthProviderMixin.


End Claim9.



Section TokenExchange.
Context `{Env}.
Import BaseOAuth2AuthProviderMixin.

Lemma get_oauth_session_spec self instance (w : World) :
  get_oauth_session self instance w =
    (Returns (new_oauth2_session (client_id instance) (get_callback_url instance)
                                 (SCOPE self) (session w !! "oauth_state")),
     set_session (delete "oauth_state") w).
Proof.
  unfold get_oauth_session, session_contains, session_pop. unfold_monad.
  destruct (session w !! "oauth_state") as [st |] eqn:E.
  - rewrite bool_decide_eq_true_2 by eauto. rewrite E. reflexivity.
  - rewrite bool_decide_eq_false_2 by (intros [? ?]; congruence).
    unfold set_session. rewrite delete_id by exact E. now destruct w.
Qed.

(** The method is the provider's answer with every exception replaced by an
    [AuthFlowError] without arguments. *)
Lemma get_oauth_token_and_response_spec self instance code (w : World) :
  fst (get_oauth_token_and_response self instance code w) =
    match provider_answer self instance code w with
    | Returns r => Returns r
    | Raises _ => Raises (AuthFlowError None)
    end.
Proof.
  unfold get_oauth_token_and_response, provider_answer, callback_client,
         after_fetch_token.
  unfold try_except at 1.
  rewrite (bind_returns _ _ _ _ _ (get_oauth_session_spec self instance w)).
  unfold fetch_token, oauth_session_get. unfold_monad. cbn.
  destruct (oauth_fetch_token _ _ _ _ _) as [token | e]; cbn; [| reflexivity].
  destruct (oauth_get _ _ _ _) as [resp | e]; cbn; [| reflexivity].
  destruct (json_body resp) as [body | e]; reflexivity.
Qed.

End TokenExchange.

Section Claim7.
Context `{Env}.
Import BaseOAuth2AuthProviderMixin.

(** C7. [get_oauth_token_and_response] raises exactly when the token
    exchange, the user-info request or the parsing of its JSON body raises;
    whatever that exception was, the caller sees [AuthFlowError] without any
    argument, so without any detail of the provider's exception, and no other
    exception ever leaves the method. *)
Theorem get_oauth_token_and_response_raises_only_auth_flow_error
    (self : ProviderType) (instance : AuthProviderModel) (code : string) (w : World) :
  ((∃ e, provider_answer self instance code w = Raises e) ↔
   fst (get_oauth_token_and_response self instance code w) = Raises (AuthFlowError None)) ∧
  (∀ e, fst (get_oauth_token_and_response self instance code w) = Raises e ->
        e = AuthFlowError None).
Proof.
  rewrite get_oauth_token_and_response_spec.
  destruct (provider_answer self instance code w) as [r | e].
  - split; [split |].
    + intros [e E]. discriminate E.
    + intros E. discriminate E.
    + intros e E. discriminate E.
  - split; [split |].
    + reflexivity.
    + eauto.
    + intros e' E. now inversion E.
Qed.

End Claim7.

Lemma get_oauth_token_and_response_raises_only_auth_flow_error_witness :
  @provider_answer Demo.rejecting Google Demo.instance "code" (Demo.world ∅)
    = Raises (Upstream "invalid_grant: code expired for client 42") ∧
  fst (@BaseOAuth2AuthProviderMixin.get_oauth_token_and_response
         Demo.rejecting Google Demo.instance "code" (Demo.world ∅))
    = Raises (AuthFlowError None).
Proof.
  split; [reflexivity |].
  apply (proj1 (@get_oauth_token_and_response_raises_only_auth_flow_error
                  Demo.rejecting Google Demo.instance "code" (Demo.world ∅))).
  eexists. reflexivity.
Defined.

Section Claim1.
Context `{Env}.
Import BaseOAuth2AuthProviderMixin.

(** C1, as the code has it.  When the session holds nothing under
    ["oauth_state"], the callback builds its OAuth client without a state and
    goes on: [get_oauth_token_and_response] fails with [AuthFlowError] exactly
    when the token exchange or the user-info request fails, and returns the
    token and the response when they succeed. *)
Theorem callback_without_stored_state
    (self : ProviderType) (instance : AuthProviderModel) (code : string) (w : World) :
  session w !! "oauth_state" = None ->
  oa_state (callback_client self instance w) = None ∧
  (fst (get_oauth_token_and_response self instance code w) = Raises (AuthFlowError None)
   ↔ ∃ e, provider_answer self instance code w = Raises e) ∧
  (∀ r, provider_answer self instance code w = Returns r ->
        fst (get_oauth_token_and_response self instance code w) = Returns r).
Proof.
  intros E. split; [| split].
  - unfold callback_client. rewrite E. now destruct self.
  - rewrite get_oauth_token_and_response_spec.
    destruct (provider_answer self instance code w); split; eauto; try discriminate.
    intros [? ?]; discriminate.
  - intros r Hr. now rewrite get_oauth_token_and_response_spec, Hr.
Qed.

End Claim1.

(** C1, as the claim states it, fails: with an empty session and a provider
    that accepts the code, [get_user_info] returns a [UserInfo]. *)
Lemma callback_without_stored_state_counterexample :
  ¬ (∀ (E : Env) (self : ProviderType) (instance : AuthProviderModel)
       (code : string) (w : World),
       session w !! "oauth_state" = None ->
       ∃ msg, fst (@ProviderTypes.get_user_info E self instance code w)
              = Raises (AuthFlowError msg)).
Proof.
  intros C.
  destruct (C Demo.accepting Google Demo.instance "code" (Demo.world ∅))
    as [msg E]; [apply lookup_empty |].
  vm_compute in E. discriminate E.
Qed.

Lemma callback_without_stored_state_witness :
  session (Demo.world ∅) !! "oauth_state" = None ∧
  fst (@BaseOAuth2AuthProviderMixin.get_oauth_token_and_response
         Demo.accepting Google Demo.instance "code" (Demo.world ∅))
    = Returns ([("access_token", JStr "at")], Demo.alice).
Proof.
  split; [apply lookup_empty |].
  apply (proj2 (proj2 (@callback_without_stored_state
                         Demo.accepting Google Demo.instance "code" (Demo.world ∅)
                         (lookup_empty _)))).
  reflexivity.
Defined.

Section Claim5.
Context `{Env}.
Import BaseOAuth2AuthProviderMixin.

(** C5. For an OpenID Connect provider with [use_id_token] set, when the
    token exchange returns a token without an ["id_token"] entry,
    [get_user_info] raises [AuthFlowError("Id token is missing")]: no
    [UserInfo] is produced. *)
Theorem get_user_info_id_token_missing
    (instance : AuthProviderModel) (code : string) (w w1 : World)
    (token : list (string * Json)) (json_response : Json) :
  use_id_token instance = true ->
  get_oauth_token_and_response OpenIdConnect instance code w
    = (Returns (token, json_response), w1) ->
  dict_lookup "id_token" token = None ->
  ProviderTypes.get_user_info OpenIdConnect instance code w
    = (Raises (AuthFlowError (Some "Id token is missing")), w1).
Proof.
  intros Huse Hex Hmiss.
  unfold ProviderTypes.get_user_info, OpenIdConnectAuthProviderTypeMixin.get_user_info.
  rewrite (bind_returns _ _ _ _ _ Hex). cbv beta zeta. cbn [fst snd].
  rewrite Huse, Hmiss. reflexivity.
Qed.

End Claim5.

Lemma get_user_info_id_token_missing_witness :
  use_id_token Demo.instance = true ∧
  fst (@ProviderTypes.get_user_info Demo.accepting OpenIdConnect Demo.instance
         "code" (Demo.world ∅))
    = Raises (AuthFlowError (Some "Id token is missing")).
Proof.
  split; [reflexivity |].
  erewrite (@get_user_info_id_token_missing Demo.accepting Demo.instance "code"
              (Demo.world ∅)).
  - reflexivity.
  - reflexivity.
  - vm_compute. reflexivity.
  - reflexivity.
Defined.

(** ** GitHub *)

Lemma dict_lookup_set_eq k v d : dict_lookup k (dict_set k v d) = Some v.
Proof.
  induction d as [| [k' v'] d IH]; cbn.
  - now rewrite String.eqb_refl.
  - destruct (String.eqb k k') eqn:E; cbn; rewrite ?String.eqb_refl, ?E; auto.
Qed.

Lemma dict_lookup_set_ne k k' v d :
  k ≠ k' -> dict_lookup k' (dict_set k v d) = dict_lookup k' d.
Proof.
  intros N. induction d as [| [k0 v0] d IH]; cbn.
  - destruct (String.eqb k' k) eqn:E; [| reflexivity].
    apply String.eqb_eq in E. congruence.
  - destruct (String.eqb k k0) eqn:E; cbn.
    + apply String.eqb_eq in E. subst k0.
      destruct (String.eqb k' k) eqn:E'; [| reflexivity].
      apply String.eqb_eq in E'. congruence.
    + destruct (String.eqb k' k0); auto.
Qed.

Section GitHub.
Context `{Env}.
Import BaseOAuth2AuthProviderMixin.
Import GitHubAuthProviderType.

Lemma is_primary_dict d : is_primary (JDict d) = flagged_primary (JDict d).
Proof. unfold is_primary. cbn. now destruct (dict_lookup "primary" d). Qed.

Lemma filter_first_primary pre p post :
  Forall (fun e => is_dict e = true ∧ flagged_primary e = false) pre ->
  flagged_primary (JDict p) = true ->
  List.filter is_primary (pre ++ JDict p :: post)
    = JDict p :: List.filter is_primary post.
Proof.
  intros Hpre Hp. induction Hpre as [| e pre [Hd Hf] _ IH]; cbn [app List.filter].
  - now rewrite is_primary_dict, Hp.
  - destruct e; try discriminate Hd. now rewrite is_primary_dict, Hf.
Qed.

(** [get_email] on a 200 answer that carries a JSON list. *)
Lemma get_email_on_list headers (w : World) resp es :
  requests_get (events w) EMAILS_URL headers = Returns resp ->
  status_code resp = 200 ->
  json_body resp = Returns (JList es) ->
  get_email headers w =
    (match es with
     | [] => Returns JNull
     | first :: _ =>
         let email := match List.filter is_primary es with
                      | e :: _ => e
                      | [] => first
                      end in
         if is_dict email then py_get email "email" (JStr "") else Returns email
     end,
     record (EvRequestsGet EMAILS_URL headers) w).
Proof.
  intros Hget Hst Hbody.
  unfold get_email, requests_get_call, raise_for_status. unfold_monad.
  rewrite Hget, Hst, Hbody. cbn.
  destruct es as [| first es]; [reflexivity |]. cbn -[List.filter].
  destruct (match List.filter is_primary (first :: es) with
            | [] => first | e :: _ => e end) eqn:E; reflexivity.
Qed.

(** Once the token exchange has answered and [get_email] has returned [em],
    the flow completes with a [UserInfo] whose e-mail is [em]. *)
Lemma get_user_info_with_email instance code (w w1 w2 : World) token d em :
  get_oauth_token_and_response GitHub instance code w = (Returns (token, JDict d), w1) ->
  get_email (github_headers token) w1 = (Returns em, w2) ->
  session w2 = session w1 ->
  name_is_text d ->
  request_data_is_dict w1 ->
  ∃ ui original w3,
    ProviderTypes.get_user_info GitHub instance code w = (Returns (ui, original), w3) ∧
    email ui = em.
Proof.
  intros Hex Hem Hses Hname Hreq.
  unfold ProviderTypes.get_user_info, GitHubAuthProviderType.get_user_info.
  rewrite (bind_returns _ _ _ _ _ Hex). cbv beta zeta. cbn [fst snd].
  assert (Htry : try_except
            (let access_token :=
               match dict_lookup "access_token" token with
               | Some v => v
               | None => JNull
               end in
             email ← get_email [("Authorization", "token " +:+ py_str access_token)];
             lift (py_setitem (JDict d) "email" email))
            (fun _ => raise (AuthFlowError None)) w1
          = (Returns (JDict (dict_set "email" em d)), w2)).
  { apply try_except_returns. cbv zeta.
    unfold github_headers, default in Hem.
    rewrite (bind_returns _ _ _ _ _ Hem). reflexivity. }
  rewrite (bind_returns _ _ _ _ _ Htry).
  unfold get_user_info_from_oauth_json_response.
  assert (Hpop : ∃ rd w3, pop_request_data_from_session w2 = (Returns (JDict rd), w3)).
  { assert (Hreq2 : request_data_is_dict w2).
    { intros s E. rewrite Hses in E. exact (Hreq s E). }
    destruct (pop_request_data_dict _ Hreq2) as [rd Hp]. eauto. }
  destruct Hpop as (rd & w3 & Hpop).
  rewrite (bind_returns _ _ _ _ _ Hpop).
  unfold_monad. cbn.
  rewrite dict_lookup_set_eq.
  rewrite (dict_lookup_set_ne "email" "name") by discriminate.
  destruct Hname as [-> | [s ->]]; cbn.
  - eexists _, _, _. split; reflexivity.
  - destruct (String.eqb (strip s) ""); cbn; eexists _, _, _; split; reflexivity.
Qed.

End GitHub.

Section Claim3.
Context `{Env}.
Import BaseOAuth2AuthProviderMixin.

(** C3. When GitHub's e-mail endpoint answers 200 with a list in which the
    entry [p] is the first one flagged primary, the entries before it being
    objects that are not, [get_email] returns the address of [p], whatever
    the first entry of the list is; and [get_user_info], for a user-info
    response with a textual name, returns a [UserInfo] whose [email] is that
    address. *)
Theorem get_email_prefers_primary
    (instance : AuthProviderModel) (code : string) (w w1 : World)
    (token d : list (string * Json)) (resp : Response)
    (pre post : list Json) (p : list (string * Json)) :
  get_oauth_token_and_response GitHub instance code w = (Returns (token, JDict d), w1) ->
  requests_get (events w1) EMAILS_URL (github_headers token) = Returns resp ->
  status_code resp = 200 ->
  json_body resp = Returns (JList (pre ++ JDict p :: post)) ->
  Forall (fun e => is_dict e = true ∧ flagged_primary e = false) pre ->
  flagged_primary (JDict p) = true ->
  name_is_text d ->
  request_data_is_dict w1 ->
  fst (GitHubAuthProviderType.get_email (github_headers token) w1)
    = Returns (entry_email (JDict p)) ∧
  ∃ ui original w3,
    ProviderTypes.get_user_info GitHub instance code w = (Returns (ui, original), w3) ∧
    email ui = entry_email (JDict p).
Proof.
  intros Hex Hget Hst Hbody Hpre Hp Hname Hreq.
  pose proof (get_email_on_list _ _ _ _ Hget Hst Hbody) as Hem.
  rewrite (filter_first_primary _ _ _ Hpre Hp) in Hem.
  assert (Hem' : GitHubAuthProviderType.get_email (github_headers token) w1
                 = (Returns (entry_email (JDict p)),
                    record (EvRequestsGet EMAILS_URL (github_headers token)) w1)).
  { rewrite Hem. destruct pre; reflexivity. }
  split.
  - now rewrite Hem'.
  - eapply get_user_info_with_email; eauto.
Qed.


End Claim3.

Lemma get_email_prefers_primary_witness :
  ∃ ui original w3,
    @ProviderTypes.get_user_info (Demo.github Demo.two_emails) GitHub Demo.instance
       "code" (Demo.world ∅) = (Returns (ui, original), w3) ∧
    email ui = JStr "main@example.com".
Proof.
  refine (proj2 (@get_email_prefers_primary (Demo.github Demo.two_emails)
            Demo.instance "code" (Demo.world ∅) _ [("access_token", JStr "at")]
            [("name", JStr "Octo Cat")]
            (mkResponse 200 (Returns (JList Demo.two_emails)))
            [JDict [("email", JStr "old@example.com"); ("primary", JBool false)]]
            []
            [("email", JStr "main@example.com"); ("primary", JBool true)]
            _ _ _ _ _ _ _ _)).
  - vm_compute. reflexivity.
  - reflexivity.
  - reflexivity.
  - reflexivity.
  - repeat constructor.
  - reflexivity.
  - right. exists "Octo Cat". reflexivity.
  - intros s E. vm_compute in E. discriminate E.
Defined.



(** ** [str.strip] *)

Section Strip.

Lemma string_app_assoc (a b c : string) : (a +:+ b) +:+ c = a +:+ (b +:+ c).
Proof.
  induction a as [| x a IH]; [reflexivity |].
  change (String x ((a +:+ b) +:+ c) = String x (a +:+ (b +:+ c))).
  now rewrite IH.
Qed.

Lemma string_app_nil_r (a : string) : a +:+ "" = a.
Proof.
  induction a as [| x a IH]; [reflexivity |].
  change (String x (a +:+ "") = String x a). now rewrite IH.
Qed.

Lemma string_app_inv_l (a x y : string) : a +:+ x = a +:+ y -> x = y.
Proof.
  induction a as [| c a IH]; [auto |].
  change (String c (a +:+ x) = String c (a +:+ y) -> x = y).
  intros E. inversion E. auto.
Qed.

Lemma string_app_length (a b : string) :
  String.length (a +:+ b) = (String.length a + String.length b)%nat.
Proof.
  induction a as [| c a IH]; [reflexivity |].
  change (S (String.length (a +:+ b)) = S (String.length a + String.length b)).
  now rewrite IH.
Qed.

Lemma flatten_app (l m : list string) : flatten (l ++ m) = flatten l +:+ flatten m.
Proof.
  induction l as [| c l IH]; [reflexivity |].
  change (c +:+ flatten (l ++ m) = (c +:+ flatten l) +:+ flatten m).
  now rewrite IH, string_app_assoc.
Qed.

(** **** Continuation bytes *)

Lemma conts_split n : ∀ z q r, conts n z = Some (q, r) -> z = q +:+ r.
Proof.
  induction n as [| k IH]; intros z q r; cbn [conts].
  - intros E. now inversion E.
  - destruct z as [| b z]; [discriminate |].
    destruct (is_cont b); [| discriminate].
    destruct (conts k z) as [[q' r'] |] eqn:E; [| discriminate].
    intros E'. inversion E'; subst.
    change (String b z = String b (q' +:+ r)). now rewrite (IH _ _ _ E).
Qed.

Lemma conts_exact n : ∀ z q r w, conts n z = Some (q, r) -> conts n (q +:+ w) = Some (q, w).
Proof.
  induction n as [| k IH]; intros z q r w; cbn [conts].
  - intros E. now inversion E.
  - destruct z as [| b z]; [discriminate |].
    destruct (is_cont b) eqn:Hb; [| discriminate].
    destruct (conts k z) as [[q' r'] |] eqn:E; [| discriminate].
    intros E'. inversion E'; subst.
    change (String b q' +:+ w) with (String b (q' +:+ w)). cbn [conts].
    now rewrite Hb, (IH _ _ _ w E).
Qed.

Lemma conts_none_prefix n : ∀ p r, conts n (p +:+ r) = None -> conts n p = None.
Proof.
  induction n as [| k IH]; intros p r E; [discriminate E |].
  destruct p as [| b p]; [reflexivity |].
  change (String b p +:+ r) with (String b (p +:+ r)) in E.
  cbn [conts] in E |- *.
  destruct (is_cont b); [| reflexivity].
  destruct (conts k (p +:+ r)) as [[q' r'] |] eqn:E2; [discriminate E |].
  now rewrite (IH _ _ E2).
Qed.

Lemma conts_none_boundary n : ∀ x c y,
  is_cont c = false -> conts n x = None -> conts n (x +:+ String c y) = None.
Proof.
  induction n as [| k IH]; intros x c y Hc E; [discriminate E |].
  destruct x as [| b x].
  - change ("" +:+ String c y) with (String c y). cbn [conts]. now rewrite Hc.
  - change (String b x +:+ String c y) with (String b (x +:+ String c y)).
    cbn [conts] in E |- *.
    destruct (is_cont b); [| reflexivity].
    destruct (conts k x) as [[q' r'] |] eqn:E2; [discriminate E |].
    now rewrite (IH _ _ _ Hc E2).
Qed.

(** **** Characters *)

Lemma chunks_from_skip q : ∀ r, chunks_from (String.length q) (q +:+ r) = chunks r.
Proof.
  induction q as [| b q IH]; intros r; [reflexivity |].
  change (String b q +:+ r) with (String b (q +:+ r)). cbn. apply IH.
Qed.

Lemma conts_length n : ∀ z q r, conts n z = Some (q, r) -> String.length q = n.
Proof.
  induction n as [| k IH]; intros z q r; cbn [conts].
  - intros E. now inversion E.
  - destruct z as [| b z]; [discriminate |].
    destruct (is_cont b); [| discriminate].
    destruct (conts k z) as [[q' r'] |] eqn:E; [| discriminate].
    intros E'. inversion E'; subst. cbn. now rewrite (IH _ _ _ E).
Qed.

Lemma chunks_cons a z :
  chunks (String a z) =
    match conts (need a) z with
    | Some (q, r) => String a q :: chunks r
    | None => String a "" :: chunks z
    end.
Proof.
  unfold chunks. cbn [chunks_from].
  destruct (conts (need a) z) as [[q r] |] eqn:E; [| reflexivity].
  f_equal. rewrite (conts_split _ _ _ _ E) at 1.
  rewrite <- (conts_length _ _ _ _ E). apply chunks_from_skip.
Qed.

Lemma flatten_chunks s : flatten (chunks s) = s.
Proof.
  assert (H : ∀ n s, (String.length s <= n)%nat -> flatten (chunks s) = s).
  { clear s. induction n as [| n IH]; intros s Hn.
    - destruct s; [reflexivity | cbn in Hn; lia].
    - destruct s as [| a z]; [reflexivity |]. rewrite chunks_cons.
      destruct (conts (need a) z) as [[q r] |] eqn:E.
      + pose proof (conts_split _ _ _ _ E) as Hz.
        change (flatten (String a q :: chunks r))
          with (String a q +:+ flatten (chunks r)).
        rewrite IH.
        * change (String a (q +:+ r) = String a z). now rewrite <- Hz.
        * subst z. cbn in Hn. rewrite string_app_length in Hn. lia.
      + change (flatten (String a "" :: chunks z))
          with (String a (flatten (chunks z))).
        rewrite IH; [reflexivity |]. cbn in Hn. lia. }
  now apply (H (String.length s)).
Qed.

(** Two texts are cut independently when the second does not start with a
    continuation byte. *)
Lemma chunks_app x c y :
  is_cont c = false ->
  chunks (x +:+ String c y) = chunks x ++ chunks (String c y).
Proof.
  intros Hc.
  assert (H : ∀ n x, (String.length x <= n)%nat ->
                chunks (x +:+ String c y) = chunks x ++ chunks (String c y)).
  { clear x. induction n as [| n IH]; intros x Hn.
    - destruct x; [reflexivity | cbn in Hn; lia].
    - destruct x as [| a z]; [reflexivity |].
      change (String a z +:+ String c y) with (String a (z +:+ String c y)).
      rewrite !(chunks_cons a).
      destruct (conts (need a) z) as [[q r] |] eqn:E.
      + pose proof (conts_split _ _ _ _ E) as Hz.
        assert (E' : conts (need a) (z +:+ String c y) = Some (q, r +:+ String c y)).
        { rewrite Hz, string_app_assoc. eapply conts_exact. exact E. }
        rewrite E'. cbn [app]. f_equal. apply IH.
        subst z. cbn in Hn. rewrite string_app_length in Hn. lia.
      + rewrite (conts_none_boundary _ _ _ _ Hc E). cbn [app]. f_equal.
        apply IH. cbn in Hn. lia. }
  now apply (H (String.length x)).
Qed.

Lemma parsed_chunks s : parsed (chunks s).
Proof. unfold parsed. now rewrite flatten_chunks. Qed.

Lemma chunks_nonempty s : Forall (fun ch => ch ≠ "") (chunks s).
Proof.
  assert (H : ∀ n s, (String.length s <= n)%nat -> Forall (fun ch => ch ≠ "") (chunks s)).
  { clear s. induction n as [| n IH]; intros s Hn.
    - destruct s; [constructor | cbn in Hn; lia].
    - destruct s as [| a z]; [constructor |]. rewrite chunks_cons.
      destruct (conts (need a) z) as [[q r] |] eqn:E.
      + constructor; [discriminate |]. apply IH.
        rewrite (conts_split _ _ _ _ E) in Hn. cbn in Hn.
        rewrite string_app_length in Hn. lia.
      + constructor; [discriminate |]. apply IH. cbn in Hn. lia. }
  now apply (H (String.length s)).
Qed.

Lemma parsed_cons_inv c l : parsed (c :: l) -> parsed l.
Proof.
  unfold parsed. intros H.
  change (flatten (c :: l)) with (c +:+ flatten l) in H.
  destruct c as [| a q0].
  - pose proof (chunks_nonempty (flatten l)) as Hne.
    change ("" +:+ flatten l) with (flatten l) in H. rewrite H in Hne.
    inversion Hne. congruence.
  - change (String a q0 +:+ flatten l) with (String a (q0 +:+ flatten l)) in H.
    rewrite chunks_cons in H.
    destruct (conts (need a) (q0 +:+ flatten l)) as [[q r] |] eqn:E.
    + injection H as Hq Hr. subst q0.
      pose proof (conts_split _ _ _ _ E) as Hz. apply string_app_inv_l in Hz.
      now rewrite Hz.
    + injection H as Hq Hr. subst q0. exact Hr.
Qed.

Lemma parsed_app_r pre l : parsed (pre ++ l) -> parsed l.
Proof.
  induction pre as [| c pre IH]; [auto |]. intros H. apply IH.
  eapply parsed_cons_inv, H.
Qed.

Lemma parsed_app_l l : ∀ t, parsed (l ++ t) -> parsed l.
Proof.
  induction l as [| c l IH]; intros t H; [reflexivity |].
  pose proof (parsed_cons_inv _ _ H) as Hl. apply IH in Hl.
  unfold parsed in *.
  change (flatten ((c :: l) ++ t)) with (c +:+ flatten (l ++ t)) in H.
  change (flatten (c :: l)) with (c +:+ flatten l).
  rewrite flatten_app in H.
  destruct c as [| a q0].
  - pose proof (chunks_nonempty (flatten l +:+ flatten t)) as Hne.
    change ("" +:+ (flatten l +:+ flatten t)) with (flatten l +:+ flatten t) in H.
    rewrite H in Hne. inversion Hne. congruence.
  - change (String a q0 +:+ (flatten l +:+ flatten t))
      with (String a (q0 +:+ (flatten l +:+ flatten t))) in H.
    change (String a q0 +:+ flatten l) with (String a (q0 +:+ flatten l)).
    rewrite chunks_cons in H. rewrite chunks_cons.
    destruct (conts (need a) (q0 +:+ (flatten l +:+ flatten t))) as [[q r] |] eqn:E.
    + injection H as Hq Hr. subst q0.
      rewrite (conts_exact _ _ _ _ (flatten l) E). now rewrite Hl.
    + injection H as Hq Hr. subst q0.
      change ("" +:+ (flatten l +:+ flatten t)) with (flatten l +:+ flatten t) in E.
      change ("" +:+ flatten l) with (flatten l).
      rewrite (conts_none_prefix _ _ _ E). now rewrite Hl.
Qed.

(** **** Trimming *)

Lemma ltrim_idem l : ltrim (ltrim l) = ltrim l.
Proof.
  induction l as [| c l IH]; [reflexivity |]. cbn.
  destruct (is_blank c) eqn:E; [exact IH |]. cbn. now rewrite E.
Qed.

Lemma rtrim_idem l : rtrim (rtrim l) = rtrim l.
Proof.
  induction l as [| c l IH]; [reflexivity |]. cbn [rtrim].
  destruct (rtrim l) as [| c' r] eqn:R.
  - destruct (is_blank c) eqn:E; [reflexivity |]. cbn. now rewrite E.
  - cbn [rtrim]. fold rtrim. cbn [rtrim] in IH. now rewrite IH.
Qed.

Lemma rtrim_ltrim l : rtrim (ltrim l) = ltrim (rtrim l).
Proof.
  induction l as [| c l IH]; [reflexivity |]. cbn [ltrim rtrim].
  destruct (is_blank c) eqn:E.
  - rewrite IH. destruct (rtrim l) as [| c' r]; [reflexivity |].
    cbn [ltrim]. now rewrite E.
  - cbn [rtrim]. destruct (rtrim l) as [| c' r]; cbn [ltrim]; rewrite ?E; reflexivity.
Qed.

Lemma ltrim_suffix l : ∃ pre, l = pre ++ ltrim l.
Proof.
  induction l as [| c l [pre IH]]; [exists []; reflexivity |]. cbn.
  destruct (is_blank c); [| exists []; reflexivity].
  exists (c :: pre). cbn. now rewrite <- IH.
Qed.

Lemma rtrim_prefix l : ∃ t, l = rtrim l ++ t.
Proof.
  induction l as [| c l [t IH]]; [exists []; reflexivity |]. cbn [rtrim].
  destruct (rtrim l) as [| c' r] eqn:R.
  - destruct (is_blank c); [exists (c :: l) | exists l]; [reflexivity |].
    cbn in IH. now subst.
  - exists t. cbn [app]. f_equal. exact IH.
Qed.

Lemma ltrim_head l :
  match ltrim l with
  | [] => True
  | c :: _ => is_blank c = false
  end.
Proof.
  induction l as [| c l IH]; [exact I |]. cbn.
  destruct (is_blank c) eqn:E; [exact IH | exact E].
Qed.

Lemma rtrim_app_blank l c : is_blank c = true -> rtrim (l ++ [c]) = rtrim l.
Proof.
  intros Hc. induction l as [| x l IH]; cbn [app rtrim].
  - now rewrite Hc.
  - now rewrite IH.
Qed.

Lemma rtrim_app_fixed t b : b ≠ [] -> rtrim b = b -> rtrim (t ++ b) = t ++ b.
Proof.
  intros Hne Hb. induction t as [| c t IH]; [exact Hb |].
  cbn [app rtrim]. rewrite IH.
  destruct (t ++ b) eqn:E; [| reflexivity].
  destruct t; cbn in E; [congruence | discriminate].
Qed.

Lemma ltrim_app_fixed a t : a ≠ [] -> ltrim a = a -> ltrim (a ++ t) = a ++ t.
Proof.
  intros Hne Ha. destruct a as [| c a]; [congruence |].
  pose proof (ltrim_head (c :: a)) as Hh. rewrite Ha in Hh.
  cbn. now rewrite Hh.
Qed.

Lemma rtrim_cons c l : rtrim l ≠ [] -> rtrim (c :: l) = c :: rtrim l.
Proof. intros N. cbn [rtrim]. destruct (rtrim l); [congruence | reflexivity]. Qed.

(** **** [strip] *)

Lemma parsed_trimmed s : parsed (trimmed s).
Proof.
  unfold trimmed.
  destruct (rtrim_prefix (chunks s)) as [t Ht].
  destruct (ltrim_suffix (rtrim (chunks s))) as [pre Hp].
  pose proof (parsed_chunks s) as H. rewrite Ht in H. apply parsed_app_l in H.
  rewrite Hp in H. now apply parsed_app_r in H.
Qed.

Lemma chunks_strip s : chunks (strip s) = trimmed s.
Proof. apply parsed_trimmed. Qed.

Lemma ltrim_trimmed s : ltrim (trimmed s) = trimmed s.
Proof. apply ltrim_idem. Qed.

Lemma rtrim_trimmed s : rtrim (trimmed s) = trimmed s.
Proof. unfold trimmed. now rewrite rtrim_ltrim, rtrim_idem. Qed.

Lemma strip_empty_iff s : strip s = "" ↔ trimmed s = [].
Proof.
  split.
  - intros E. rewrite <- chunks_strip, E. reflexivity.
  - intros E. unfold strip. fold (trimmed s). now rewrite E.
Qed.

Lemma strip_idem s : strip (strip s) = strip s.
Proof.
  unfold strip at 1. rewrite chunks_strip, rtrim_trimmed, ltrim_trimmed. reflexivity.
Qed.

Lemma chunks_space z : chunks (String " " z) = " " :: chunks z.
Proof. rewrite chunks_cons. reflexivity. Qed.

Lemma chunks_join a b :
  chunks (a +:+ " " +:+ b) = chunks a ++ " " :: chunks b.
Proof.
  change (a +:+ " " +:+ b) with (a +:+ String " " b).
  rewrite chunks_app by reflexivity. now rewrite chunks_space.
Qed.

(** The shapes of [" ".join([first, last]).strip()] when [first] and
    [last] are themselves stripped. *)
Lemma strip_join_both x y :
  strip x ≠ "" -> strip y ≠ "" ->
  strip (join_space (strip x) (strip y)) = strip x +:+ " " +:+ strip y.
Proof.
  intros Hx Hy. unfold join_space. unfold strip at 1.
  rewrite chunks_join, !chunks_strip.
  assert (Nx : trimmed x ≠ []) by (intros E; apply Hx; now apply strip_empty_iff).
  assert (Ny : trimmed y ≠ []) by (intros E; apply Hy; now apply strip_empty_iff).
  assert (R : rtrim (trimmed x ++ " " :: trimmed y) = trimmed x ++ " " :: trimmed y).
  { apply rtrim_app_fixed; [discriminate |].
    rewrite rtrim_cons by (now rewrite rtrim_trimmed). now rewrite rtrim_trimmed. }
  rewrite R, ltrim_app_fixed by (auto using ltrim_trimmed).
  rewrite flatten_app. reflexivity.
Qed.

Lemma strip_join_first_only x :
  strip (join_space (strip x) "") = strip x.
Proof.
  unfold join_space. unfold strip at 1.
  rewrite chunks_join, chunks_strip. change (chunks "") with (@nil string).
  rewrite rtrim_app_blank by reflexivity.
  now rewrite rtrim_trimmed, ltrim_trimmed.
Qed.

Lemma strip_join_last_only y :
  strip (join_space "" (strip y)) = strip y.
Proof.
  unfold join_space. unfold strip at 1.
  rewrite chunks_join, chunks_strip. change (chunks "") with (@nil string).
  cbn [app]. destruct (trimmed y) as [| c r] eqn:E.
  - symmetry. now apply strip_empty_iff.
  - rewrite rtrim_cons by (rewrite <- E, rtrim_trimmed, E; discriminate).
    rewrite <- E, rtrim_trimmed. cbn [ltrim]. change (is_blank " ") with true.
    cbn iota. now rewrite ltrim_trimmed.
Qed.

End Strip.

(** ** OpenID Connect: the display name *)

Section Claim4.
Context `{Env}.
Import OpenIdConnectAuthProviderTypeMixin.

Lemma user_info_endpoint_names instance d :
  text_or_absent d (first_name_attr_key instance) ->
  (last_name_attr_key instance = "" ∨ text_or_absent d (last_name_attr_key instance)) ->
  get_user_info_from_user_info_endpoint instance (JDict d)
    = Returns (email_of instance d, display_name instance d).
Proof.
  intros Hf Hl.
  unfold get_user_info_from_user_info_endpoint, display_name, first_name_of,
         last_name_of, email_of, claim_text, default, truthy.
  unfold_monad. cbn [py_get].
  destruct (String.eqb (last_name_attr_key instance) "") eqn:El; cbn [negb].
  - destruct Hf as [-> | [sf ->]]; reflexivity.
  - destruct Hl as [Hl | Hl]; [rewrite Hl in El; discriminate El |].
    destruct Hf as [-> | [sf ->]], Hl as [-> | [sl ->]]; reflexivity.
Qed.

Lemma id_token_names instance id_token key d (w w1 : World) :
  _get_verifying_key instance id_token true w = (Returns key, w1) ->
  jwt_decode id_token key (client_id instance) (issuer instance) = Returns d ->
  get_user_info_from_id_token instance id_token w
    = (get_user_info_from_user_info_endpoint instance (JDict d), w1).
Proof.
  intros Hk Hd. unfold get_user_info_from_id_token.
  rewrite (bind_returns _ _ _ _ _ Hk).
  unfold_monad. cbn. rewrite Hd. reflexivity.
Qed.

(** C4. For a claim set whose first-name and last-name claims are strings
    (or absent), both the user-info path and the ID-token path return the
    e-mail claim together with the display name: first and last name joined
    by one space when both are non-empty, the trimmed first name when only
    the last name is empty, the trimmed last name when only the first name
    is empty, and the e-mail when both are empty. *)
Theorem display_name_synthesis
    (instance : AuthProviderModel) (d : list (string * Json)) :
  text_or_absent d (first_name_attr_key instance) ->
  (last_name_attr_key instance = "" ∨ text_or_absent d (last_name_attr_key instance)) ->
  let first := first_name_of instance d in
  let last := last_name_of instance d in
  let email := email_of instance d in
  ∃ name : Json,
    get_user_info_from_user_info_endpoint instance (JDict d) = Returns (email, name) ∧
    (∀ id_token key (w w1 : World),
       _get_verifying_key instance id_token true w = (Returns key, w1) ->
       jwt_decode id_token key (client_id instance) (issuer instance) = Returns d ->
       get_user_info_from_id_token instance id_token w = (Returns (email, name), w1)) ∧
    name = (if String.eqb (strip (join_space first last)) "" then email
            else JStr (strip (join_space first last))) ∧
    (first ≠ "" -> last ≠ "" -> name = JStr (first +:+ " " +:+ last)) ∧
    (first ≠ "" -> last = "" -> name = JStr first) ∧
    (first = "" -> last ≠ "" -> name = JStr last) ∧
    (first = "" -> last = "" -> name = email).
Proof.
  intros Hf Hl first last email.
  exists (display_name instance d).
  pose proof (user_info_endpoint_names _ _ Hf Hl) as Hu.
  assert (Hx : ∃ x, first = strip x) by (eexists; reflexivity).
  assert (Hy : ∃ y, last = strip y).
  { subst last. unfold last_name_of.
    destruct (String.eqb (last_name_attr_key instance) ""); [| eauto].
    exists "". reflexivity. }
  assert (Hne : ∀ x : string, x ≠ "" -> String.eqb x "" = false).
  { intros x N. destruct (String.eqb x "") eqn:E; [| reflexivity].
    apply String.eqb_eq in E. contradiction. }
  assert (Hdn : display_name instance d
                = if String.eqb (strip (join_space first last)) "" then email
                  else JStr (strip (join_space first last))) by reflexivity.
  split; [exact Hu |]. split; [| split; [exact Hdn |]].
  - intros id_token key w w1 Hk Hd.
    rewrite (id_token_names _ _ _ _ _ _ Hk Hd). now rewrite Hu.
  - rewrite Hdn. clear Hdn Hu. clearbody first last email.
    destruct Hx as [x ->], Hy as [y ->].
    split; [| split; [| split]].
    + intros Nf Nl. rewrite (strip_join_both _ _ Nf Nl).
      rewrite Hne; [reflexivity |].
      destruct (strip x); [congruence | discriminate].
    + intros Nf E. rewrite E, strip_join_first_only. now rewrite (Hne _ Nf).
    + intros E Nl. rewrite E, strip_join_last_only. now rewrite (Hne _ Nl).
    + intros E1 E2. rewrite E1, E2. reflexivity.
Qed.

End Claim4.

Lemma display_name_synthesis_witness :
  @OpenIdConnectAuthProviderTypeMixin.get_user_info_from_user_info_endpoint
     Demo.instance
     (JDict [("email", JStr "ada@example.com"); ("given_name", JStr "  Ada ")])
  = Returns (JStr "ada@example.com", JStr "Ada").
Proof.
  destruct (@display_name_synthesis Demo.accepting Demo.instance
              [("email", JStr "ada@example.com"); ("given_name", JStr "  Ada ")])
    as (name & Hu & _ & _ & _ & Hfirst & _).
  - right. exists "  Ada ". reflexivity.
  - right. left. reflexivity.
  - rewrite Hu, Hfirst; [reflexivity | discriminate | reflexivity].
Defined.

(** ** OpenID Connect: discovery *)

Section Claim6.
Context `{Env}.
Import OpenIdConnectAuthProviderTypeMixin.

Lemma get_wellknown_urls_fails (w : World) base :
  discovery_fails w base ->
  get_wellknown_urls base w
    = (Raises InvalidProviderUrl, record (EvRequestsGet (wellknown_url base) []) w).
Proof.
  unfold discovery_fails, get_wellknown_urls, requests_get_call, wellknown_url.
  unfold_monad. intros Hfail.
  destruct (requests_get _ _ _) as [resp | e]; [| reflexivity].
  destruct (json_body resp) as [doc | e]; [| reflexivity].
  destruct Hfail as (f & e & Hin & Hf).
  unfold required_endpoint_fields in Hin.
  repeat (apply elem_of_cons in Hin as [-> | Hin]);
    [.. | now apply elem_of_nil in Hin];
    repeat match goal with
           | |- context [py_getitem doc ?k] =>
               destruct (py_getitem doc k) eqn:?; [| reflexivity]
           end; congruence.
Qed.

(** C6. When discovery fails for the base URL in [values], [create] raises
    [InvalidProviderUrl], and so does [update] (which discovers whenever
    [values] carries a non-empty base URL); in both cases the provider table
    is what it was, and the only event is the discovery request: no
    persistence call has happened. *)
Theorem discovery_failure_persists_nothing
    (provider : AuthProviderModel) (values : list (string * Json)) (base : Json)
    (w : World) :
  dict_lookup "base_url" values = Some base ->
  discovery_fails w base ->
  let w' := record (EvRequestsGet (wellknown_url base) []) w in
  create values w = (Raises InvalidProviderUrl, w') ∧
  (truthy base = true -> update provider values w = (Raises InvalidProviderUrl, w')) ∧
  providers w' = providers w ∧
  EvPersist ∉ drop (List.length (events w)) (events w').
Proof.
  intros Hbase Hfail w'. pose proof (get_wellknown_urls_fails _ _ Hfail) as Hw.
  split; [| split; [| split]].
  - unfold create. unfold_monad. cbn. rewrite Hbase.
    unfold_monad. now rewrite Hw.
  - intros Ht. unfold update. rewrite Hbase, Ht. unfold_monad. now rewrite Hw.
  - reflexivity.
  - subst w'. cbn. rewrite drop_app_length.
    intros Hin. apply list_elem_of_singleton in Hin. discriminate Hin.
Qed.

End Claim6.

Lemma discovery_failure_persists_nothing_witness :
  let w := Demo.world ∅ in
  @discovery_fails Demo.incomplete_discovery w (JStr "https://idp.example") ∧
  fst (@OpenIdConnectAuthProviderTypeMixin.create Demo.incomplete_discovery
         Demo.new_values w) = Raises InvalidProviderUrl ∧
  providers (snd (@OpenIdConnectAuthProviderTypeMixin.create
                    Demo.incomplete_discovery Demo.new_values w)) = ∅.
Proof.
  intros w.
  assert (Hf : @discovery_fails Demo.incomplete_discovery w (JStr "https://idp.example")).
  { exists "jwks_uri", (KeyError "jwks_uri"). split; [| reflexivity].
    unfold required_endpoint_fields. repeat constructor. }
  split; [exact Hf |].
  destruct (@discovery_failure_persists_nothing Demo.incomplete_discovery
              Demo.instance Demo.new_values (JStr "https://idp.example") w
              eq_refl Hf) as (Hc & _ & Hp & _).
  rewrite Hc. split; [reflexivity | exact Hp].
Defined.

(** ** OpenID Connect: the verifying key *)

Section VerifyingKey.
Context `{Env}.
Import OpenIdConnectAuthProviderTypeMixin.

Lemma find_matching_key_absent kid ks :
  Forall (other_kid kid) ks -> find_matching_key kid ks = Returns None.
Proof.
  induction 1 as [| j ks (k & Hk & Hne) _ IH]; [reflexivity |].
  cbn [find_matching_key]. unfold_monad. now rewrite Hk, Hne.
Qed.

Lemma find_matching_key_first kid pre j post k key :
  Forall (other_kid kid) pre ->
  py_getitem j "kid" = Returns k -> py_eq k kid = true ->
  from_jwk j = Returns key ->
  find_matching_key kid (pre ++ j :: post) = Returns (Some key).
Proof.
  intros Hpre Hk Heq Hkey.
  induction Hpre as [| j' pre (k' & Hk' & Hne) _ IH]; cbn [app find_matching_key];
    unfold_monad.
  - now rewrite Hk, Heq, Hkey.
  - now rewrite Hk', Hne.
Qed.

Lemma _get_verifying_key_from_unfold retries instance id_token (w : World) :
  _get_verifying_key_from retries instance id_token w =
    match load_jwks instance w with
    | (Raises e, w1) => (Raises e, w1)
    | (Returns jwks, w1) =>
        match select_key id_token jwks with
        | Raises e => (Raises e, w1)
        | Returns (_, Some key) => (Returns key, w1)
        | Returns (kid, None) =>
            match retries with
            | S r =>
                _get_verifying_key_from r instance id_token
                  (record (EvCacheInvalidate (jwks_cache_key instance))
                     (set_jwks_cache (delete (jwks_cache_key instance)) w1))
            | O =>
                (Raises (AuthFlowError
                   (Some ("Matching JWK not found for kid: " +:+ py_str kid))), w1)
            end
        end
    end.
Proof.
  destruct retries; cbn [_get_verifying_key_from BaseOAuth2AuthProviderMixin.get_jwks_url];
    unfold load_jwks, select_key, jwks_cache_key, global_cache_invalidate;
    unfold_monad;
    (destruct (global_cache_get _ _ w) as [[jwks | e] w1]; [| reflexivity]);
    (destruct (jwt_get_unverified_header id_token) as [hdr | e]; [| reflexivity]);
    (destruct (py_getitem (JDict hdr) "kid") as [kid | e]; [| reflexivity]);
    (destruct (py_getitem jwks "keys") as [keys | e]; [| reflexivity]);
    (destruct (py_iter keys) as [items | e]; [| reflexivity]);
    (destruct (find_matching_key kid items) as [[key |] | e]; reflexivity).
Qed.

Lemma load_jwks_hit instance (w : World) jwks :
  jwks_cache w !! jwks_cache_key instance = Some jwks ->
  load_jwks instance w = (Returns jwks, w).
Proof.
  intros E. unfold load_jwks, global_cache_get. unfold_monad. now rewrite E.
Qed.

Lemma load_jwks_miss instance (w : World) :
  jwks_cache w !! jwks_cache_key instance = None ->
  load_jwks instance w =
    let w1 := record (jwks_fetch instance) w in
    match requests_get (events w) (jwks_url instance) [] with
    | Returns resp =>
        match json_body resp with
        | Returns jwks =>
            (Returns jwks, set_jwks_cache (<[jwks_cache_key instance := jwks]>) w1)
        | Raises _ =>
            (Raises (AuthFlowError
               (Some ("Failed to call JWK endpoint with URL " +:+ jwks_url instance))), w1)
        end
    | Raises _ =>
        (Raises (AuthFlowError
           (Some ("Failed to call JWK endpoint with URL " +:+ jwks_url instance))), w1)
    end.
Proof.
  intros E. unfold load_jwks, global_cache_get, requests_get_call, jwks_fetch.
  unfold_monad. rewrite E.
  destruct (requests_get _ _ _) as [resp | e]; [| reflexivity].
  destruct (json_body resp); reflexivity.
Qed.

(** [load_jwks] sends at most one request, and nothing else. *)
Lemma load_jwks_events instance (w : World) :
  events (snd (load_jwks instance w)) = events w ∨
  events (snd (load_jwks instance w)) = events w ++ [jwks_fetch instance].
Proof.
  destruct (jwks_cache w !! jwks_cache_key instance) as [jwks |] eqn:E.
  - left. now rewrite (load_jwks_hit _ _ _ E).
  - right. rewrite (load_jwks_miss _ _ E). cbv zeta.
    destruct (requests_get _ _ _) as [resp | e]; [| reflexivity].
    destruct (json_body resp); reflexivity.
Qed.

Lemma select_key_absent id_token hdr kid jwks :
  jwt_get_unverified_header id_token = Returns hdr ->
  dict_lookup "kid" hdr = Some kid ->
  kid_absent kid jwks ->
  select_key id_token jwks = Returns (kid, None).
Proof.
  intros Hh Hk (ks & Hks & Hall). unfold select_key. unfold_monad.
  rewrite Hh. cbn. rewrite Hk, Hks. cbn.
  now rewrite (find_matching_key_absent _ _ Hall).
Qed.

Lemma select_key_first id_token hdr kid jwks j key :
  jwt_get_unverified_header id_token = Returns hdr ->
  dict_lookup "kid" hdr = Some kid ->
  kid_first_at kid jwks j ->
  from_jwk j = Returns key ->
  select_key id_token jwks = Returns (kid, Some key).
Proof.
  intros Hh Hk (pre & post & k & Hks & Hpre & Hj & Heq) Hkey.
  unfold select_key. unfold_monad.
  rewrite Hh. cbn. rewrite Hk, Hks. cbn.
  now rewrite (find_matching_key_first _ _ _ _ _ _ Hpre Hj Heq Hkey).
Qed.

Lemma jwks_fetches_app url l k :
  jwks_fetches url (l ++ k) = (jwks_fetches url l + jwks_fetches url k)%nat.
Proof. unfold jwks_fetches. now rewrite List.filter_app, List.length_app. Qed.

(** Whatever the cache holds, a call with [retries] retries left sends at
    most [retries + 1] requests for the key set. *)
Lemma _get_verifying_key_from_fetches retries instance id_token :
  ∀ w : World, ∃ new,
    events (snd (_get_verifying_key_from retries instance id_token w)) = events w ++ new ∧
    (jwks_fetches (jwks_url instance) new <= S retries)%nat.
Proof.
  assert (Hload : ∀ w : World, ∃ new,
            events (snd (load_jwks instance w)) = events w ++ new ∧
            (jwks_fetches (jwks_url instance) new <= 1)%nat).
  { intros w. destruct (load_jwks_events instance w) as [-> | ->];
      [exists [] | exists [jwks_fetch instance]].
    - rewrite app_nil_r. split; [reflexivity | cbn; lia].
    - split; [reflexivity |].
      unfold jwks_fetches, jwks_fetch. cbn. destruct (String.eqb _ _); cbn; lia. }
  induction retries as [| r IH]; intros w;
    rewrite _get_verifying_key_from_unfold;
    destruct (Hload w) as (new & Hnew & Hle);
    destruct (load_jwks instance w) as [[jwks | e] w1]; cbn [snd] in Hnew;
    try (exists new; cbn [snd]; split; [exact Hnew | lia]).
  - destruct (select_key id_token jwks) as [[kid [key |]] | e];
      exists new; cbn [snd]; (split; [exact Hnew | lia]).
  - destruct (select_key id_token jwks) as [[kid [key |]] | e];
      try (exists new; cbn [snd]; split; [exact Hnew | lia]).
    destruct (IH (record (EvCacheInvalidate (jwks_cache_key instance))
                    (set_jwks_cache (delete (jwks_cache_key instance)) w1)))
      as (new' & Hnew' & Hle').
    exists (new ++ [EvCacheInvalidate (jwks_cache_key instance)] ++ new').
    split.
    + rewrite Hnew'. cbn [record set_jwks_cache events]. rewrite Hnew.
      now rewrite <- !app_assoc.
    + rewrite !jwks_fetches_app.
      assert (jwks_fetches (jwks_url instance)
                [EvCacheInvalidate (jwks_cache_key instance)] = 0%nat) as -> by reflexivity.
      lia.
Qed.

(** C2. The cache holds a key set from which the key id of the token is
    absent.  Then [_get_verifying_key] invalidates the cache entry once and
    then requests the key set once, and does nothing else; when the key id
    is in the set it receives, it returns the (first) matching key; when it
    is still absent, it raises [AuthFlowError] with a message that ends with
    the key id.  And whatever the cache holds, no call requests the key set
    more than twice. *)
Theorem get_verifying_key_retries_once
    (instance : AuthProviderModel) (id_token : Json) (w : World)
    (hdr : list (string * Json)) (kid cached : Json) :
  jwt_get_unverified_header id_token = Returns hdr ->
  dict_lookup "kid" hdr = Some kid ->
  jwks_cache w !! jwks_cache_key instance = Some cached ->
  kid_absent kid cached ->
  let run := _get_verifying_key instance id_token true w in
  let invalidated := events w ++ [EvCacheInvalidate (jwks_cache_key instance)] in
  events (snd run) = invalidated ++ [jwks_fetch instance] ∧
  (∀ resp fresh jwk key,
     requests_get invalidated (jwks_url instance) [] = Returns resp ->
     json_body resp = Returns fresh ->
     kid_first_at kid fresh jwk ->
     from_jwk jwk = Returns key ->
     fst run = Returns key) ∧
  (∀ resp fresh,
     requests_get invalidated (jwks_url instance) [] = Returns resp ->
     json_body resp = Returns fresh ->
     kid_absent kid fresh ->
     fst run = Raises (AuthFlowError
                 (Some ("Matching JWK not found for kid: " +:+ py_str kid)))) ∧
  (∀ (w0 : World) (retry_on_fail : bool),
     (jwks_fetches (jwks_url instance)
        (drop (List.length (events w0))
              (events (snd (_get_verifying_key instance id_token retry_on_fail w0))))
      <= 2)%nat).
Proof.
  intros Hh Hk Hc Habs run invalidated.
  set (w2 := record (EvCacheInvalidate (jwks_cache_key instance))
               (set_jwks_cache (delete (jwks_cache_key instance)) w)).
  assert (Hrun : run = _get_verifying_key_from 0 instance id_token w2).
  { subst run. unfold _get_verifying_key.
    rewrite _get_verifying_key_from_unfold, (load_jwks_hit _ _ _ Hc).
    now rewrite (select_key_absent _ _ _ _ Hh Hk Habs). }
  assert (Hmiss : jwks_cache w2 !! jwks_cache_key instance = None).
  { subst w2. cbn. apply lookup_delete_eq. }
  rewrite _get_verifying_key_from_unfold, (load_jwks_miss _ _ Hmiss) in Hrun.
  cbv zeta in Hrun.
  change (events w2) with invalidated in Hrun.
  split; [| split; [| split]].
  - rewrite Hrun.
    destruct (requests_get invalidated _ _) as [resp | e]; [| reflexivity].
    destruct (json_body resp) as [fresh | e]; [| reflexivity].
    destruct (select_key id_token fresh) as [[kid' [key |]] | e]; reflexivity.
  - intros resp fresh jwk key Hget Hbody Hfirst Hkey.
    rewrite Hrun, Hget, Hbody.
    now rewrite (select_key_first _ _ _ _ _ _ Hh Hk Hfirst Hkey).
  - intros resp fresh Hget Hbody Habs'.
    rewrite Hrun, Hget, Hbody.
    now rewrite (select_key_absent _ _ _ _ Hh Hk Habs').
  - intros w0 retry. unfold _get_verifying_key.
    destruct (_get_verifying_key_from_fetches
                (if retry then 1%nat else 0%nat) instance id_token w0)
      as (new & -> & Hle).
    rewrite drop_app_length. destruct retry; lia.
Qed.

End VerifyingKey.

Lemma get_verifying_key_retries_once_witness :
  fst (@OpenIdConnectAuthProviderTypeMixin._get_verifying_key Demo.rotated
         Demo.instance (JStr "header.payload.signature") true Demo.stale_cache)
    = Returns (mkKey 77 65537) ∧
  events (snd (@OpenIdConnectAuthProviderTypeMixin._get_verifying_key Demo.rotated
         Demo.instance (JStr "header.payload.signature") true Demo.stale_cache))
    = [EvCacheInvalidate "enterprise_oidc_jwks_result_https://idp.example/jwks";
       EvRequestsGet "https://idp.example/jwks" []].
Proof.
  destruct (@get_verifying_key_retries_once Demo.rotated Demo.instance
              (JStr "header.payload.signature") Demo.stale_cache
              [("alg", JStr "RS256"); ("kid", JStr "new")] (JStr "new")
              (Demo.jwks_with "old" 33))
    as (Hev & Hfound & _ & _).
  - reflexivity.
  - reflexivity.
  - reflexivity.
  - exists [JDict [("kid", JStr "old"); ("n", JNum 33)]]. split; [reflexivity |].
    repeat constructor. exists (JStr "old"). split; reflexivity.
  - split; [| exact Hev].
    apply (Hfound (mkResponse 200 (Returns (Demo.jwks_with "new" 77)))
                  (Demo.jwks_with "new" 77)
                  (JDict [("kid", JStr "new"); ("n", JNum 77)])).
    + reflexivity.
    + reflexivity.
    + exists [], [], (JStr "new"). repeat split; constructor.
    + reflexivity.
Defined.

(** ** The authorization redirect *)

Section Claim8.
Context `{Env}.
Import BaseOAuth2AuthProviderMixin.


End Claim8.



(** ** The methods at work *)

(** A token signed with a key that nobody publishes: one invalidation, one
    request, and the error names the key id. *)
Example forged_key_is_rejected :
  @OpenIdConnectAuthProviderTypeMixin._get_verifying_key Demo.unknown_key
     Demo.instance (JStr "header.payload.signature") true Demo.stale_cache
  = (Raises (AuthFlowError (Some "Matching JWK not found for kid: forged")),
     mkWorld ∅
       {["enterprise_oidc_jwks_result_https://idp.example/jwks" := Demo.jwks_with "new" 77]}
       ∅ 0
       [EvCacheInvalidate "enterprise_oidc_jwks_result_https://idp.example/jwks";
        EvRequestsGet "https://idp.example/jwks" []]).
Proof. vm_compute. reflexivity. Qed.

(** With an empty cache the key set is requested, cached and used. *)
Example first_login_fetches_once :
  let run := @OpenIdConnectAuthProviderTypeMixin._get_verifying_key Demo.rotated
               Demo.instance (JStr "header.payload.signature") true (Demo.world ∅) in
  fst run = Returns (mkKey 77 65537) ∧
  events (snd run) = [EvRequestsGet "https://idp.example/jwks" []].
Proof. vm_compute. split; reflexivity. Qed.

(** A complete login with Google, from the redirect to the [UserInfo]. *)
Example google_login :
  let w1 := snd (@BaseOAuth2AuthProviderMixin.get_authorization_url Demo.accepting
                   Google Demo.instance (JDict []) (Demo.world ∅)) in
  fst (@ProviderTypes.get_user_info Demo.accepting Google Demo.instance "code" w1)
  = Returns (mkUserInfo (JStr "Alice") (JStr "alice@example.com") JNull JNull, JStr "").
Proof. vm_compute. reflexivity. Qed.

(** Discovery that succeeds is followed by the persistence call. *)
Example create_persists_after_discovery :
  let doc := JDict [("authorization_endpoint", JStr "https://idp.example/authorize");
                    ("token_endpoint", JStr "https://idp.example/token");
                    ("userinfo_endpoint", JStr "https://idp.example/userinfo");
                    ("jwks_uri", JStr "https://idp.example/jwks");
                    ("issuer", JStr "https://idp.example")] in
  let E := Demo.env (fun _ _ _ => Returns (mkResponse 200 (Returns doc)))
             (Raises (Upstream "unused")) (Raises (Upstream "unused"))
             Demo.no_header (Raises (Upstream "DecodeError")) in
  events (snd (@OpenIdConnectAuthProviderTypeMixin.create E Demo.new_values (Demo.world ∅)))
  = [EvRequestsGet "https://idp.example/.well-known/openid-configuration" []; EvPersist].
Proof. reflexivity. Qed.

(** ** Routes and login options *)

Section Routes.

Lemma collect_api_urls_loaded types :
  collect_api_urls types true = ([], true).
Proof.
  induction types as [| self rest IH]; [reflexivity |].
  cbn. now rewrite IH.
Qed.

(** The routes are registered once per process: whichever provider types are
    asked, in whatever order, a fresh process hands out the single pattern
    at the first call and nothing afterwards, and a process that has handed
    it out never does so again. *)
Theorem routes_are_registered_once (types : list ProviderType) (loaded : bool) :
  types ≠ [] ->
  collect_api_urls types loaded
    = (if loaded then [] else [mkUrlPattern "sso/oauth2/" "enterprise_sso_oauth2"],
       true).
Proof.
  destruct types as [| self rest]; [congruence |]. intros _.
  destruct loaded; cbn; now rewrite collect_api_urls_loaded.
Qed.

Lemma routes_are_registered_once_witness :
  collect_api_urls [Google; GitHub; OpenIdConnect] false
    = ([mkUrlPattern "sso/oauth2/" "enterprise_sso_oauth2"], true).
Proof.
  apply (routes_are_registered_once [Google; GitHub; OpenIdConnect] false).
  discriminate.
Defined.

Lemma login_items_fold login_url ty (rows : list ProviderRow) acc :
  fold_left
    (fun items instance =>
       items ++ [mkLoginItem (login_url (row_id instance)) (row_name instance) ty])
    rows acc
  = acc ++ List.map (fun r => mkLoginItem (login_url (row_id r)) (row_name r) ty) rows.
Proof.
  revert acc. induction rows as [| r rows IH]; intros acc; cbn.
  - now rewrite app_nil_r.
  - rewrite IH. now rewrite <- app_assoc.
Qed.

(** [get_login_options] offers no login when the SSO feature is inactive or
    no instance is enabled, and only then.  Otherwise there is one item per
    enabled instance, in the order of the table, each with the type of the
    provider; and the default redirect is set exactly when one instance is
    enabled, to the login URL of that instance. *)
Theorem login_options_follow_enabled_instances
    (active : bool) (login_url : Z -> string) (table : list ProviderRow)
    (self : ProviderType) :
  let enabled := List.filter row_enabled table in
  let options := OAuth2AuthProviderMixin.get_login_options active login_url table self in
  (options = None ↔ active = false ∨ enabled = []) ∧
  (∀ o, options = Some o ->
     options_type o = OAuth2AuthProviderMixin.type self ∧
     items o = List.map (fun r => mkLoginItem (login_url (row_id r)) (row_name r)
                                    (OAuth2AuthProviderMixin.type self)) enabled ∧
     (∀ u, default_redirect_url o = Some u ↔
           ∃ r, enabled = [r] ∧ u = login_url (row_id r))).
Proof.
  intros enabled options. subst options.
  unfold OAuth2AuthProviderMixin.get_login_options. fold enabled.
  destruct active; cbn [negb].
  - destruct enabled as [| r rest] eqn:E.
    + split; [split; auto | intros o Ho; discriminate Ho].
    + rewrite login_items_fold. cbn [app].
      split.
      * split; [intros Ho; discriminate Ho | intros [Ho | Ho]; discriminate Ho].
      * intros o Ho. inversion Ho as [Ho']. clear Ho. cbn.
        split; [reflexivity | split; [reflexivity |]].
        intros u. rewrite List.length_map.
        destruct rest as [| r' rest']; cbn.
        -- split.
           ++ intros Hu. inversion Hu. eauto.
           ++ intros (r0 & Hr & ->). inversion Hr. reflexivity.
        -- split; [intros Hu; discriminate Hu |].
           intros (r0 & Hr & _). discriminate Hr.
  - split; [split; auto | intros o Ho; discriminate Ho].
Qed.

End Routes.

Lemma login_options_follow_enabled_instances_witness :
  ∃ o, OAuth2AuthProviderMixin.get_login_options true DemoMore.login_url DemoMore.rows GitLab
         = Some o ∧
       default_redirect_url o = Some "https://baserow.example/api/sso/oauth2/login/n/".
Proof.
  eexists. split; [reflexivity |].
  apply (proj2 (proj2 (proj2 (login_options_follow_enabled_instances
                                true DemoMore.login_url DemoMore.rows GitLab) _ eq_refl))).
  exists (mkProviderRow 2 "Partners" true). split; reflexivity.
Defined.

(** ** The callback and the session *)

Section Callback.
Context `{Env}.
Import BaseOAuth2AuthProviderMixin.

Lemma get_oauth_token_and_response_run self instance code (w : World) :
  get_oauth_token_and_response self instance code w =
    (match provider_answer self instance code w with
     | Returns r => Returns r
     | Raises _ => Raises (AuthFlowError None)
     end,
     after_exchange self instance code w).
Proof.
  unfold get_oauth_token_and_response, provider_answer, after_exchange,
         callback_client, after_fetch_token.
  unfold try_except at 1.
  rewrite (bind_returns _ _ _ _ _ (get_oauth_session_spec self instance w)).
  unfold fetch_token, oauth_session_get. unfold_monad. cbn.
  destruct (oauth_fetch_token _ _ _ _ _) as [token | e]; cbn; [| reflexivity].
  destruct (oauth_get _ _ _ _) as [resp | e]; cbn; [| reflexivity].
  destruct (json_body resp) as [body | e]; reflexivity.
Qed.

Lemma after_exchange_session self instance code (w : World) :
  session (after_exchange self instance code w) = delete "oauth_state" (session w).
Proof.
  unfold after_exchange. now destruct (oauth_fetch_token _ _ _ _ _).
Qed.

(** The callback consumes the CSRF state.  Whether the exchange succeeds or
    fails, [get_oauth_token_and_response] leaves the session without
    ["oauth_state"] and with every other key as it was; it touches neither
    the key-set cache nor the provider table; and it sends the token request,
    followed by the user-info request exactly when the token request was
    answered. *)
Theorem callback_consumes_state
    (self : ProviderType) (instance : AuthProviderModel) (code : string) (w : World) :
  let w' := snd (get_oauth_token_and_response self instance code w) in
  let token_request :=
    EvFetchToken (get_access_token_url self instance) code (secret instance) in
  session w' = delete "oauth_state" (session w) ∧
  jwks_cache w' = jwks_cache w ∧
  providers w' = providers w ∧
  ((∃ token, oauth_fetch_token (events w) (callback_client self instance w)
               (get_access_token_url self instance) code (secret instance)
             = Returns token) ->
   events w' = events w ++ [token_request; EvOAuthGet (get_user_info_url self instance)]) ∧
  ((∃ e, oauth_fetch_token (events w) (callback_client self instance w)
           (get_access_token_url self instance) code (secret instance)
         = Raises e) ->
   events w' = events w ++ [token_request]).
Proof.
  intros w' token_request. subst w'.
  rewrite get_oauth_token_and_response_run. cbn [snd].
  unfold after_exchange.
  destruct (oauth_fetch_token _ _ _ _ _) as [token | e]; cbn.
  - repeat split; try reflexivity.
    + intros _. now rewrite <- app_assoc.
    + intros [e E]. discriminate E.
  - repeat split; try reflexivity.
    intros [t E]. discriminate E.
Qed.

(** What [push_request_data_to_session] stores, [pop_request_data_from_session]
    gives back, provided the JSON codec reads what it wrote; and the session
    is then as it was before the push, without the key. *)
Theorem request_data_round_trip (query_params : list (string * Json)) (w : World) :
  json_loads (json_dumps (JDict query_params)) = Returns (JDict query_params) ->
  let w1 := snd (push_request_data_to_session (JDict query_params) w) in
  fst (pop_request_data_from_session w1) = Returns (JDict query_params) ∧
  session (snd (pop_request_data_from_session w1))
    = delete "oauth_request_data" (session w).
Proof.
  intros Hcodec w1.
  assert (Hor : or_empty_dict (JDict query_params) = JDict query_params).
  { unfold or_empty_dict. now destruct query_params. }
  assert (Hs : session w1 !! "oauth_request_data" = Some (json_dumps (JDict query_params))).
  { subst w1. unfold push_request_data_to_session, session_set. cbn.
    rewrite Hor. apply lookup_insert_eq. }
  rewrite (pop_request_data_present _ _ Hs), Hcodec. cbn.
  split; [reflexivity |].
  subst w1. unfold push_request_data_to_session, session_set. cbn.
  apply delete_insert_eq.
Qed.

End Callback.

Lemma callback_consumes_state_witness :
  session (snd (@BaseOAuth2AuthProviderMixin.get_oauth_token_and_response Demo.rejecting
                  Google Demo.instance "code"
                  (Demo.world {["oauth_state" := "a-token"]}))) !! "oauth_state" = None ∧
  events (snd (@BaseOAuth2AuthProviderMixin.get_oauth_token_and_response Demo.rejecting
                 Google Demo.instance "code"
                 (Demo.world {["oauth_state" := "a-token"]})))
    = [EvFetchToken "https://www.googleapis.com/oauth2/v4/token" "code" "s3cret"].
Proof.
  destruct (@callback_consumes_state Demo.rejecting Google Demo.instance "code"
              (Demo.world {["oauth_state" := "a-token"]}))
    as (Hs & _ & _ & _ & Hfail).
  split.
  - rewrite Hs. apply lookup_delete_eq.
  - apply Hfail. eexists. reflexivity.
Defined.

Lemma request_data_round_trip_witness :
  fst (@BaseOAuth2AuthProviderMixin.pop_request_data_from_session DemoMore.accepting
         (snd (@BaseOAuth2AuthProviderMixin.push_request_data_to_session DemoMore.accepting
                 (JDict [("language", JStr "fr")]) (Demo.world ∅))))
    = Returns (JDict [("language", JStr "fr")]).
Proof.
  apply (@request_data_round_trip DemoMore.accepting [("language", JStr "fr")]
           (Demo.world ∅)).
  reflexivity.
Defined.

Section Flow.
Context `{Env}.
Import BaseOAuth2AuthProviderMixin.

Lemma get_authorization_url_run self instance query_params (w : World) :
  get_authorization_url self instance query_params w =
    (Returns (prepare_request_uri (redirect_client self instance w)
                (get_base_url self instance) (csrf_state w)),
     after_redirect query_params w).
Proof.
  assert (Hauth : ∀ o url, oa_state o = session w !! "oauth_state" ->
            oauth_authorization_url o url (set_session (delete "oauth_state") w)
              = (Returns (prepare_request_uri o url (csrf_state w), csrf_state w),
                 if draws_token w
                 then draw_token (set_session (delete "oauth_state") w)
                 else set_session (delete "oauth_state") w)).
  { intros o url Ho. unfold oauth_authorization_url, csrf_state, draws_token.
    rewrite Ho. destruct (session w !! "oauth_state") as [st |]; cbn [truthy].
    - destruct (String.eqb st ""); reflexivity.
    - reflexivity. }
  unfold get_authorization_url, after_redirect, redirect_client.
  pose proof (get_oauth_session_spec self instance w) as Hs.
  destruct self; rewrite (bind_returns _ _ _ _ _ Hs); cbv beta zeta;
    match goal with
    | |- context [oauth_authorization_url ?o ?u] =>
        rewrite (bind_returns _ _ _ _ _ (Hauth o u eq_refl))
    end;
    unfold push_request_data_to_session, session_set; unfold_monad; reflexivity.
Qed.


Lemma user_info_from_response resp rd (s : string) (w : World) :
  session w !! "oauth_request_data" = Some s ->
  json_loads s = Returns (JDict rd) ->
  name_is_text resp ->
  ∃ name,
    get_user_info_from_oauth_json_response (JDict resp) w =
      (Returns (mkUserInfo name
                  (default JNull (dict_lookup "email" resp))
                  (default JNull (dict_lookup "workspace_invitation_token" rd))
                  (default JNull (dict_lookup "language" rd)),
                default (JStr "") (dict_lookup "original" rd)),
       set_session (delete "oauth_request_data") w).
Proof.
  intros Hs Hl Hname. unfold get_user_info_from_oauth_json_response.
  pose proof (pop_request_data_present _ _ Hs) as Hpop. rewrite Hl in Hpop.
  rewrite (bind_returns _ _ _ _ _ Hpop). unfold_monad. cbn. unfold default.
  destruct Hname as [-> | [n ->]]; cbn.
  - eexists. reflexivity.
  - destruct (String.eqb (strip n) ""); cbn; eexists; reflexivity.
Qed.

(** The redirect and the callback compose: for a provider that uses the
    base [get_user_info], the invitation token, the language and the original
    URL given to [get_authorization_url] are the ones the callback returns
    with the [UserInfo], and afterwards the session holds neither the state
    nor the request data. *)
Theorem redirect_then_callback
    (self : ProviderType) (instance : AuthProviderModel) (code : string)
    (query_params response token : list (string * Json)) (w : World) :
  let w1 := snd (get_authorization_url self instance (JDict query_params) w) in
  json_loads (json_dumps (JDict query_params)) = Returns (JDict query_params) ->
  provider_answer self instance code w1 = Returns (token, JDict response) ->
  name_is_text response ->
  ∃ ui w2,
    BaseOAuth2AuthProviderMixin.get_user_info self instance code w1
      = (Returns (ui, default (JStr "") (dict_lookup "original" query_params)), w2) ∧
    workspace_invitation_token ui
      = default JNull (dict_lookup "workspace_invitation_token" query_params) ∧
    language ui = default JNull (dict_lookup "language" query_params) ∧
    email ui = default JNull (dict_lookup "email" response) ∧
    session w2 !! "oauth_state" = None ∧
    session w2 !! "oauth_request_data" = None.
Proof.
  intros w1 Hcodec Hans Hname.
  assert (Hor : or_empty_dict (JDict query_params) = JDict query_params).
  { unfold or_empty_dict. now destruct query_params. }
  assert (Hrd : session w1 !! "oauth_request_data"
                = Some (json_dumps (JDict query_params))).
  { subst w1. rewrite get_authorization_url_run. cbn [snd].
    unfold after_redirect. cbn. rewrite Hor. apply lookup_insert_eq. }
  pose proof (get_oauth_token_and_response_run self instance code w1) as Hrun.
  rewrite Hans in Hrun.
  assert (Hrd' : session (after_exchange self instance code w1) !! "oauth_request_data"
                 = Some (json_dumps (JDict query_params))).
  { rewrite after_exchange_session. rewrite lookup_delete_ne by discriminate. exact Hrd. }
  destruct (user_info_from_response response query_params _ _ Hrd' Hcodec Hname)
    as [name Hui].
  unfold BaseOAuth2AuthProviderMixin.get_user_info.
  rewrite (bind_returns _ _ _ _ _ Hrun). cbn [snd]. rewrite Hui.
  eexists _, _. split; [reflexivity |]. cbn.
  repeat split.
  - rewrite lookup_delete_ne by discriminate.
    rewrite after_exchange_session. apply lookup_delete_eq.
  - apply lookup_delete_eq.
Qed.

(** A failed exchange keeps the request data.  For every provider type, when
    the token exchange or the user-info request fails, [get_user_info] raises
    [AuthFlowError] without arguments, the state is gone from the session,
    and what the session holds under ["oauth_request_data"] is still
    there. *)
Theorem failed_callback_keeps_request_data
    (self : ProviderType) (instance : AuthProviderModel) (code : string)
    (w : World) (e : PyExc) :
  provider_answer self instance code w = Raises e ->
  let run := ProviderTypes.get_user_info self instance code w in
  fst run = Raises (AuthFlowError None) ∧
  session (snd run) !! "oauth_state" = None ∧
  session (snd run) !! "oauth_request_data" = session w !! "oauth_request_data".
Proof.
  intros Hans run.
  pose proof (get_oauth_token_and_response_run self instance code w) as Hrun.
  rewrite Hans in Hrun.
  assert (Hall : run = (Raises (AuthFlowError None), after_exchange self instance code w)).
  { subst run. unfold ProviderTypes.get_user_info.
    destruct self;
      unfold BaseOAuth2AuthProviderMixin.get_user_info,
             GitHubAuthProviderType.get_user_info,
             OpenIdConnectAuthProviderTypeMixin.get_user_info;
      now rewrite (bind_raises _ _ _ _ _ Hrun). }
  rewrite Hall. cbn [fst snd]. rewrite after_exchange_session.
  split; [reflexivity | split].
  - apply lookup_delete_eq.
  - now apply lookup_delete_ne.
Qed.

End Flow.


Lemma redirect_then_callback_witness :
  let w1 := snd (@BaseOAuth2AuthProviderMixin.get_authorization_url DemoMore.accepting
                   Google Demo.instance (JDict [("language", JStr "fr")])
                   (Demo.world ∅)) in
  ∃ ui w2,
    @BaseOAuth2AuthProviderMixin.get_user_info DemoMore.accepting Google Demo.instance
       "code" w1 = (Returns (ui, JStr ""), w2) ∧
    language ui = JStr "fr".
Proof.
  intros w1.
  destruct (@redirect_then_callback DemoMore.accepting Google Demo.instance "code"
              [("language", JStr "fr")]
              [("name", JStr "Alice"); ("email", JStr "alice@example.com")]
              [("access_token", JStr "at")] (Demo.world ∅))
    as (ui & w2 & Hrun & _ & Hlang & _).
  - reflexivity.
  - reflexivity.
  - right. exists "Alice". reflexivity.
  - exists ui, w2. split; [exact Hrun | exact Hlang].
Defined.

Lemma failed_callback_keeps_request_data_witness :
  let w := Demo.world {["oauth_request_data" := "{}"]} in
  fst (@ProviderTypes.get_user_info Demo.rejecting GitHub Demo.instance "code" w)
    = Raises (AuthFlowError None) ∧
  session (snd (@ProviderTypes.get_user_info Demo.rejecting GitHub Demo.instance "code" w))
    !! "oauth_request_data" = Some "{}".
Proof.
  intros w.
  destruct (@failed_callback_keeps_request_data Demo.rejecting GitHub Demo.instance
              "code" w (Upstream "invalid_grant: code expired for client 42") eq_refl)
    as (Hr & _ & Hs).
  split; [exact Hr |]. rewrite Hs. reflexivity.
Defined.

(** ** GitHub: the other answers of the e-mail endpoint *)

Section GitHubMore.
Context `{Env}.
Import BaseOAuth2AuthProviderMixin.

Lemma filter_none_primary es :
  Forall (fun e => is_dict e = true ∧ flagged_primary e = false) es ->
  List.filter GitHubAuthProviderType.is_primary es = [].
Proof.
  induction 1 as [| e es [Hd Hf] _ IH]; [reflexivity |]. cbn [List.filter].
  destruct e; try discriminate Hd. now rewrite is_primary_dict, Hf.
Qed.

(** When no entry of the list is flagged primary, [get_email] returns the
    address of the first entry. *)
Theorem get_email_falls_back_to_first_entry
    (headers : list (string * string)) (w : World) (resp : Response)
    (first : list (string * Json)) (rest : list Json) :
  requests_get (events w) EMAILS_URL headers = Returns resp ->
  status_code resp = 200 ->
  json_body resp = Returns (JList (JDict first :: rest)) ->
  Forall (fun e => is_dict e = true ∧ flagged_primary e = false) (JDict first :: rest) ->
  fst (GitHubAuthProviderType.get_email headers w) = Returns (entry_email (JDict first)).
Proof.
  intros Hget Hst Hbody Hnone.
  rewrite (get_email_on_list _ _ _ _ Hget Hst Hbody).
  now rewrite (filter_none_primary _ Hnone).
Qed.

(** An entry that is not an object counts as primary: when the list starts
    with one (the e-mail endpoint once answered with plain strings),
    [get_email] returns that entry itself, whatever follows it, even an
    object flagged primary. *)
Theorem get_email_returns_plain_first_entry
    (headers : list (string * string)) (w : World) (resp : Response)
    (first : Json) (rest : list Json) :
  requests_get (events w) EMAILS_URL headers = Returns resp ->
  status_code resp = 200 ->
  json_body resp = Returns (JList (first :: rest)) ->
  is_dict first = false ->
  fst (GitHubAuthProviderType.get_email headers w) = Returns first.
Proof.
  intros Hget Hst Hbody Hplain.
  rewrite (get_email_on_list _ _ _ _ Hget Hst Hbody). cbn [List.filter].
  assert (Hp : GitHubAuthProviderType.is_primary first = true).
  { unfold GitHubAuthProviderType.is_primary. now rewrite Hplain. }
  rewrite Hp. cbv zeta. cbn [fst]. now rewrite Hplain.
Qed.


(** When the request for the e-mail addresses fails (transport error, HTTP
    error status, or a body that is not JSON), GitHub's [get_user_info]
    raises [AuthFlowError] without arguments, after exactly that one
    request. *)
Theorem github_email_failure_is_auth_flow_error
    (instance : AuthProviderModel) (code : string) (w w1 : World)
    (token : list (string * Json)) (json_response : Json) :
  get_oauth_token_and_response GitHub instance code w
    = (Returns (token, json_response), w1) ->
  email_request_fails w1 (github_headers token) ->
  ProviderTypes.get_user_info GitHub instance code w
    = (Raises (AuthFlowError None),
       record (EvRequestsGet EMAILS_URL (github_headers token)) w1).
Proof.
  intros Hex Hfail.
  unfold ProviderTypes.get_user_info, GitHubAuthProviderType.get_user_info.
  rewrite (bind_returns _ _ _ _ _ Hex). cbv beta zeta. cbn [fst snd].
  assert (Hem : ∃ e, GitHubAuthProviderType.get_email (github_headers token) w1
                     = (Raises e, record (EvRequestsGet EMAILS_URL (github_headers token)) w1)).
  { unfold email_request_fails in Hfail.
    unfold GitHubAuthProviderType.get_email, requests_get_call, raise_for_status.
    unfold_monad.
    destruct (requests_get _ _ _) as [resp | e]; [| eauto].
    destruct ((400 <=? status_code resp) && (status_code resp <? 600)) eqn:E; [eauto |].
    destruct Hfail as [Hst | [e Hb]].
    - apply andb_false_iff in E. lia.
    - rewrite Hb. eauto. }
  destruct Hem as [e Hem]. unfold github_headers, default in Hem.
  assert (Htry : try_except
            (let access_token :=
               match dict_lookup "access_token" token with
               | Some v => v
               | None => JNull
               end in
             email ← GitHubAuthProviderType.get_email
                       [("Authorization", "token " +:+ py_str access_token)];
             lift (py_setitem json_response "email" email))
            (fun _ => raise (AuthFlowError None)) w1
          = (Raises (AuthFlowError None),
             record (EvRequestsGet EMAILS_URL (github_headers token)) w1)).
  { erewrite try_except_raises; [reflexivity |]. cbv zeta.
    now rewrite (bind_raises _ _ _ _ _ Hem). }
  now rewrite (bind_raises _ _ _ _ _ Htry).
Qed.

End GitHubMore.

Lemma get_email_falls_back_to_first_entry_witness :
  let es := [JDict [("email", JStr "one@example.com"); ("primary", JBool false)];
             JDict [("email", JStr "two@example.com")]] in
  fst (@GitHubAuthProviderType.get_email (Demo.github es) [] (Demo.world ∅))
    = Returns (JStr "one@example.com").
Proof.
  intros es.
  apply (@get_email_falls_back_to_first_entry (Demo.github es) [] (Demo.world ∅)
           (mkResponse 200 (Returns (JList es)))
           [("email", JStr "one@example.com"); ("primary", JBool false)]
           [JDict [("email", JStr "two@example.com")]]).
  - reflexivity.
  - reflexivity.
  - reflexivity.
  - repeat constructor.
Defined.

Lemma get_email_returns_plain_first_entry_witness :
  let es := [JStr "plain@example.com";
             JDict [("email", JStr "main@example.com"); ("primary", JBool true)]] in
  fst (@GitHubAuthProviderType.get_email (Demo.github es) [] (Demo.world ∅))
    = Returns (JStr "plain@example.com").
Proof.
  intros es.
  apply (@get_email_returns_plain_first_entry (Demo.github es) [] (Demo.world ∅)
           (mkResponse 200 (Returns (JList es))) (JStr "plain@example.com")
           [JDict [("email", JStr "main@example.com"); ("primary", JBool true)]]).
  - reflexivity.
  - reflexivity.
  - reflexivity.
  - reflexivity.
Defined.


Lemma github_email_failure_is_auth_flow_error_witness :
  let E := DemoMore.github
             (Returns (mkResponse 403 (Returns (JDict [("message", JStr "rate limit")]))))
             Demo.alice in
  fst (@ProviderTypes.get_user_info E GitHub Demo.instance "code" (Demo.world ∅))
    = Raises (AuthFlowError None).
Proof.
  intros E.
  erewrite (@github_email_failure_is_auth_flow_error E Demo.instance "code"
              (Demo.world ∅)).
  - reflexivity.
  - vm_compute. reflexivity.
  - left. cbn. lia.
Defined.

(** ** The name of the user *)

Section UserName.
Context `{Env}.
Import BaseOAuth2AuthProviderMixin.

Lemma pop_request_data_runs (w : World) :
  request_data_readable w ->
  ∃ v, pop_request_data_from_session w
       = (Returns v, set_session (delete "oauth_request_data") w).
Proof.
  intros Hread. destruct (session w !! "oauth_request_data") as [s |] eqn:E.
  - rewrite (pop_request_data_present _ _ E).
    destruct (json_loads s) as [j | e] eqn:L; [eauto |].
    rewrite (Hread s e E L). eauto.
  - rewrite (pop_request_data_absent _ E). exists (JDict []). f_equal.
    unfold set_session. rewrite delete_id by exact E. now destruct w.
Qed.

(** [get_user_info_from_oauth_json_response] keeps a name that is not blank
    exactly as the provider sent it, surrounding blanks included; a name
    that is missing, empty or all blanks is replaced by the e-mail
    address. *)
Theorem response_name_or_email (response : list (string * Json)) (w : World) :
  request_data_is_dict w ->
  name_is_text response ->
  ∃ ui original w',
    get_user_info_from_oauth_json_response (JDict response) w
      = (Returns (ui, original), w') ∧
    email ui = default JNull (dict_lookup "email" response) ∧
    (∀ s, dict_lookup "name" response = Some (JStr s) -> strip s ≠ "" ->
          name ui = JStr s) ∧
    (∀ s, dict_lookup "name" response = Some (JStr s) -> strip s = "" ->
          name ui = email ui) ∧
    (dict_lookup "name" response = None -> name ui = email ui).
Proof.
  intros Hreq Hname.
  destruct (pop_request_data_dict _ Hreq) as [rd Hpop].
  unfold get_user_info_from_oauth_json_response.
  rewrite (bind_returns _ _ _ _ _ Hpop). unfold_monad. cbn. unfold default.
  destruct Hname as [E | [n E]]; rewrite E; cbn.
  - eexists _, _, _. split; [reflexivity |]. cbn.
    repeat split; intros; congruence.
  - destruct (String.eqb (strip n) "") eqn:B; cbn;
      eexists _, _, _; (split; [reflexivity |]); cbn.
    + apply String.eqb_eq in B.
      repeat split; intros; try congruence.
    + apply String.eqb_neq in B.
      repeat split; intros; try congruence.
Qed.

(** A provider that sends a name that is not a string, [null] for example,
    makes the base [get_user_info] raise [AttributeError], not
    [AuthFlowError]; by then the request data, which [json.loads] got
    through, has been taken out of the session. *)
Theorem non_text_name_raises_attribute_error
    (self : ProviderType) (instance : AuthProviderModel) (code : string)
    (w w1 : World) (token response : list (string * Json)) (v : Json) :
  get_oauth_token_and_response self instance code w
    = (Returns (token, JDict response), w1) ->
  request_data_readable w1 ->
  dict_lookup "name" response = Some v ->
  (∀ s, v ≠ JStr s) ->
  BaseOAuth2AuthProviderMixin.get_user_info self instance code w
    = (Raises AttributeError, set_session (delete "oauth_request_data") w1).
Proof.
  intros Hex Hread Hname Hv.
  unfold BaseOAuth2AuthProviderMixin.get_user_info.
  rewrite (bind_returns _ _ _ _ _ Hex). cbn [snd].
  unfold get_user_info_from_oauth_json_response.
  destruct (pop_request_data_runs w1 Hread) as [rd Hpop].
  rewrite (bind_returns _ _ _ _ _ Hpop). unfold_monad. cbn. rewrite Hname.
  destruct v; try reflexivity. now destruct (Hv s).
Qed.

End UserName.

Lemma response_name_or_email_witness :
  ∃ ui original w',
    @BaseOAuth2AuthProviderMixin.get_user_info_from_oauth_json_response Demo.accepting
       (JDict [("name", JStr " Ada "); ("email", JStr "ada@example.com")]) (Demo.world ∅)
      = (Returns (ui, original), w') ∧
    name ui = JStr " Ada ".
Proof.
  destruct (@response_name_or_email Demo.accepting
              [("name", JStr " Ada "); ("email", JStr "ada@example.com")] (Demo.world ∅))
    as (ui & original & w' & Hrun & _ & Hkeep & _).
  - intros s E. vm_compute in E. discriminate E.
  - right. exists " Ada ". reflexivity.
  - exists ui, original, w'. split; [exact Hrun |].
    apply Hkeep; [reflexivity | discriminate].
Defined.

Lemma non_text_name_raises_attribute_error_witness :
  let E := Demo.env Demo.no_requests (Returns [("access_token", JStr "at")])
             (Returns (mkResponse 200 (Returns (JDict [("name", JNull);
                                                       ("email", JStr "x@example.com")]))))
             Demo.no_header (Raises (Upstream "DecodeError")) in
  fst (@BaseOAuth2AuthProviderMixin.get_user_info E Google Demo.instance "code"
         (Demo.world ∅)) = Raises AttributeError.
Proof.
  intros E.
  erewrite (@non_text_name_raises_attribute_error E Google Demo.instance "code"
              (Demo.world ∅) _ [("access_token", JStr "at")]
              [("name", JNull); ("email", JStr "x@example.com")] JNull).
  - reflexivity.
  - vm_compute. reflexivity.
  - intros s e Hs. vm_compute in Hs. discriminate Hs.
  - reflexivity.
  - discriminate.
Defined.

(** ** OpenID Connect: the two ways to the user *)

Section OpenIdMore.
Context `{Env}.
Import BaseOAuth2AuthProviderMixin.
Import OpenIdConnectAuthProviderTypeMixin.

Lemma oidc_user_info_tail en (w : World) :
  request_data_is_dict w ->
  ∃ invitation lang original,
    (request_data ← pop_request_data_from_session;
     invitation ← lift (py_get request_data "workspace_invitation_token" JNull);
     lang ← lift (py_get request_data "language" JNull);
     original ← lift (py_get request_data "original" (JStr ""));
     ret (mkUserInfo (snd en) (fst en) invitation lang, original)) w
    = (Returns (mkUserInfo (snd en) (fst en) invitation lang, original),
       set_session (delete "oauth_request_data") w).
Proof.
  intros Hreq. destruct (pop_request_data_dict _ Hreq) as [rd Hpop].
  rewrite (bind_returns _ _ _ _ _ Hpop). unfold_monad. cbn.
  eexists _, _, _. reflexivity.
Qed.

(** With [use_id_token] off, the identity comes from the user-info response:
    its e-mail claim and the display name made of its name claims.  The key
    set is neither requested nor read: after the token exchange there is no
    further event and the cache is untouched. *)
Theorem user_info_endpoint_path
    (instance : AuthProviderModel) (code : string) (w w1 : World)
    (token d : list (string * Json)) :
  use_id_token instance = false ->
  get_oauth_token_and_response OpenIdConnect instance code w
    = (Returns (token, JDict d), w1) ->
  text_or_absent d (first_name_attr_key instance) ->
  (last_name_attr_key instance = "" ∨ text_or_absent d (last_name_attr_key instance)) ->
  request_data_is_dict w1 ->
  ∃ ui original w2,
    ProviderTypes.get_user_info OpenIdConnect instance code w
      = (Returns (ui, original), w2) ∧
    email ui = email_of instance d ∧
    name ui = display_name instance d ∧
    events w2 = events w1 ∧
    jwks_cache w2 = jwks_cache w1.
Proof.
  intros Huse Hex Hf Hl Hreq.
  unfold ProviderTypes.get_user_info, OpenIdConnectAuthProviderTypeMixin.get_user_info.
  rewrite (bind_returns _ _ _ _ _ Hex). cbv beta zeta. cbn [fst snd].
  rewrite Huse, (user_info_endpoint_names _ _ Hf Hl).
  assert (Hl0 : lift (Returns (email_of instance d, display_name instance d)) w1
                = (Returns (email_of instance d, display_name instance d), w1))
    by reflexivity.
  rewrite (bind_returns _ _ _ _ _ Hl0).
  destruct (oidc_user_info_tail (email_of instance d, display_name instance d) _ Hreq)
    as (invitation & lang & original & Htail).
  rewrite Htail. eexists _, _, _. split; [reflexivity |]. cbn. auto.
Qed.

(** With [use_id_token] on, the identity comes from the claims of the
    verified ID token, whatever the user-info endpoint answered. *)
Theorem id_token_path
    (instance : AuthProviderModel) (code : string) (w w1 w2 : World)
    (token d : list (string * Json)) (json_response id_token : Json)
    (key : RSAPublicKey) :
  use_id_token instance = true ->
  get_oauth_token_and_response OpenIdConnect instance code w
    = (Returns (token, json_response), w1) ->
  dict_lookup "id_token" token = Some id_token ->
  _get_verifying_key instance id_token true w1 = (Returns key, w2) ->
  jwt_decode id_token key (client_id instance) (issuer instance) = Returns d ->
  text_or_absent d (first_name_attr_key instance) ->
  (last_name_attr_key instance = "" ∨ text_or_absent d (last_name_attr_key instance)) ->
  request_data_is_dict w2 ->
  ∃ ui original w3,
    ProviderTypes.get_user_info OpenIdConnect instance code w
      = (Returns (ui, original), w3) ∧
    email ui = email_of instance d ∧
    name ui = display_name instance d.
Proof.
  intros Huse Hex Hid Hkey Hdec Hf Hl Hreq.
  unfold ProviderTypes.get_user_info, OpenIdConnectAuthProviderTypeMixin.get_user_info.
  rewrite (bind_returns _ _ _ _ _ Hex). cbv beta zeta. cbn [fst snd].
  rewrite Huse, Hid.
  pose proof (id_token_names _ _ _ _ _ _ Hkey Hdec) as Hnames.
  rewrite (user_info_endpoint_names _ _ Hf Hl) in Hnames.
  rewrite (bind_returns _ _ _ _ _ Hnames).
  destruct (oidc_user_info_tail (email_of instance d, display_name instance d) _ Hreq)
    as (invitation & lang & original & Htail).
  rewrite Htail. eexists _, _, _. split; [reflexivity |]. cbn. auto.
Qed.

(** The exceptions of the JWT library are not wrapped.  With the key set in
    the cache, a token whose header cannot be read, and a token that fails
    verification with the matching key, make [get_user_info_from_id_token]
    raise the library's own exception; nothing is requested and the cache
    stays as it is. *)
Theorem jwt_errors_are_not_wrapped
    (instance : AuthProviderModel) (id_token jwks : Json) (w : World) (e : PyExc) :
  jwks_cache w !! jwks_cache_key instance = Some jwks ->
  (jwt_get_unverified_header id_token = Raises e ∨
   ∃ hdr kid jwk key,
     jwt_get_unverified_header id_token = Returns hdr ∧
     dict_lookup "kid" hdr = Some kid ∧
     kid_first_at kid jwks jwk ∧
     from_jwk jwk = Returns key ∧
     jwt_decode id_token key (client_id instance) (issuer instance) = Raises e) ->
  get_user_info_from_id_token instance id_token w = (Raises e, w).
Proof.
  intros Hc Hfail. unfold get_user_info_from_id_token, _get_verifying_key.
  destruct Hfail as [Hh | (hdr & kid & jwk & key & Hh & Hk & Hfirst & Hkey & Hdec)].
  - assert (Hv : _get_verifying_key_from 1 instance id_token w = (Raises e, w)).
    { rewrite _get_verifying_key_from_unfold, (load_jwks_hit _ _ _ Hc).
      unfold select_key. unfold_monad. now rewrite Hh. }
    now rewrite (bind_raises _ _ _ _ _ Hv).
  - assert (Hv : _get_verifying_key_from 1 instance id_token w = (Returns key, w)).
    { rewrite _get_verifying_key_from_unfold, (load_jwks_hit _ _ _ Hc).
      now rewrite (select_key_first _ _ _ _ _ _ Hh Hk Hfirst Hkey). }
    rewrite (bind_returns _ _ _ _ _ Hv). unfold_monad. cbn. now rewrite Hdec.
Qed.

(** When the key set is not cached and cannot be fetched (the request
    raises, or its body is not JSON), [_get_verifying_key] raises
    [AuthFlowError] with a message that ends with the URL; it has sent one
    request, stored nothing and invalidated nothing, and it does not retry,
    whatever [retry_on_fail] is. *)
Theorem jwks_fetch_failure
    (instance : AuthProviderModel) (id_token : Json) (retry_on_fail : bool) (w : World) :
  jwks_cache w !! jwks_cache_key instance = None ->
  (∀ resp, requests_get (events w) (jwks_url instance) [] = Returns resp ->
           ∃ e, json_body resp = Raises e) ->
  _get_verifying_key instance id_token retry_on_fail w
    = (Raises (AuthFlowError
         (Some ("Failed to call JWK endpoint with URL " +:+ jwks_url instance))),
       record (jwks_fetch instance) w).
Proof.
  intros Hmiss Hfail. unfold _get_verifying_key.
  rewrite _get_verifying_key_from_unfold, (load_jwks_miss _ _ Hmiss). cbv zeta.
  destruct (requests_get _ _ _) as [resp | e]; [| reflexivity].
  destruct (Hfail resp eq_refl) as [e ->]. reflexivity.
Qed.

Lemma verified_key_is_cached retries instance id_token :
  ∀ (w w1 : World) key,
    _get_verifying_key_from retries instance id_token w = (Returns key, w1) ->
    ∃ jwks kid,
      jwks_cache w1 !! jwks_cache_key instance = Some jwks ∧
      select_key id_token jwks = Returns (kid, Some key).
Proof.
  induction retries as [| r IH]; intros w w1 key;
    rewrite _get_verifying_key_from_unfold;
    destruct (load_jwks instance w) as [[jwks | e] w0] eqn:Hload;
    try discriminate;
    (assert (Hc : jwks_cache w0 !! jwks_cache_key instance = Some jwks);
     [ destruct (jwks_cache w !! jwks_cache_key instance) as [c |] eqn:E;
       [ rewrite (load_jwks_hit _ _ _ E) in Hload; inversion Hload; subst; exact E
       | rewrite (load_jwks_miss _ _ E) in Hload; cbv zeta in Hload;
         destruct (requests_get _ _ _) as [resp | e]; [| discriminate Hload];
         destruct (json_body resp) as [b | e]; [| discriminate Hload];
         inversion Hload; subst; cbn; apply lookup_insert_eq ]
     |]);
    destruct (select_key id_token jwks) as [[kid [k |]] | e] eqn:Hsel;
    try discriminate.
  - intros Hr. inversion Hr; subst. eauto.
  - intros Hr. inversion Hr; subst. eauto.
  - intros Hr. eapply IH. exact Hr.
Qed.

(** A verification that succeeded leaves the key set it used in the cache:
    verifying the same token again returns the same key without any request
    or invalidation, and leaves the world as it is. *)
Theorem repeated_verification_is_offline
    (instance : AuthProviderModel) (id_token : Json) (retry retry' : bool)
    (w w1 : World) (key : RSAPublicKey) :
  _get_verifying_key instance id_token retry w = (Returns key, w1) ->
  _get_verifying_key instance id_token retry' w1 = (Returns key, w1).
Proof.
  unfold _get_verifying_key. intros Hrun.
  destruct (verified_key_is_cached _ _ _ _ _ _ Hrun) as (jwks & kid & Hc & Hsel).
  rewrite _get_verifying_key_from_unfold, (load_jwks_hit _ _ _ Hc), Hsel.
  reflexivity.
Qed.

End OpenIdMore.

Lemma user_info_endpoint_path_witness :
  let E := DemoMore.oidc (JDict [("email", JStr "ada@example.com");
                                 ("given_name", JStr "Ada");
                                 ("family_name", JStr "Lovelace")])
             (Raises (Upstream "DecodeError")) in
  ∃ ui original w2,
    @ProviderTypes.get_user_info E OpenIdConnect DemoMore.endpoint_instance "code"
       (Demo.world ∅) = (Returns (ui, original), w2) ∧
    name ui = JStr "Ada Lovelace".
Proof.
  intros E.
  destruct (@user_info_endpoint_path E DemoMore.endpoint_instance "code" (Demo.world ∅)
              (snd (@BaseOAuth2AuthProviderMixin.get_oauth_token_and_response E
                      OpenIdConnect DemoMore.endpoint_instance "code" (Demo.world ∅)))
              [("access_token", JStr "at"); ("id_token", JStr "h.p.s")]
              [("email", JStr "ada@example.com"); ("given_name", JStr "Ada");
               ("family_name", JStr "Lovelace")])
    as (ui & original & w2 & Hrun & _ & Hname & _).
  - reflexivity.
  - reflexivity.
  - right. exists "Ada". reflexivity.
  - right. right. exists "Lovelace". reflexivity.
  - intros s Hs. vm_compute in Hs. discriminate Hs.
  - exists ui, original, w2. split; [exact Hrun |]. rewrite Hname. reflexivity.
Defined.

Lemma id_token_path_witness :
  let E := DemoMore.oidc (JDict [("email", JStr "someone.else@example.com")])
             (Returns [("email", JStr "ada@example.com"); ("given_name", JStr "Ada")]) in
  ∃ ui original w3,
    @ProviderTypes.get_user_info E OpenIdConnect Demo.instance "code" (Demo.world ∅)
      = (Returns (ui, original), w3) ∧
    email ui = JStr "ada@example.com".
Proof.
  intros E.
  destruct (@id_token_path E Demo.instance "code" (Demo.world ∅)
              (snd (@BaseOAuth2AuthProviderMixin.get_oauth_token_and_response E
                      OpenIdConnect Demo.instance "code" (Demo.world ∅)))
              (snd (@OpenIdConnectAuthProviderTypeMixin._get_verifying_key E
                      Demo.instance (JStr "h.p.s") true
                      (snd (@BaseOAuth2AuthProviderMixin.get_oauth_token_and_response E
                              OpenIdConnect Demo.instance "code" (Demo.world ∅)))))
              [("access_token", JStr "at"); ("id_token", JStr "h.p.s")]
              [("email", JStr "ada@example.com"); ("given_name", JStr "Ada")]
              (JDict [("email", JStr "someone.else@example.com")])
              (JStr "h.p.s") (mkKey 77 65537))
    as (ui & original & w3 & Hrun & Hemail & _).
  - reflexivity.
  - reflexivity.
  - reflexivity.
  - vm_compute. reflexivity.
  - reflexivity.
  - right. exists "Ada". reflexivity.
  - right. left. reflexivity.
  - intros s Hs. vm_compute in Hs. discriminate Hs.
  - exists ui, original, w3. split; [exact Hrun |]. rewrite Hemail. reflexivity.
Defined.

Lemma jwt_errors_are_not_wrapped_witness :
  let E := Demo.env Demo.no_requests (Raises (Upstream "unused"))
             (Raises (Upstream "unused")) (Demo.signed_with "old")
             (Raises (Upstream "InvalidSignatureError")) in
  @OpenIdConnectAuthProviderTypeMixin.get_user_info_from_id_token E Demo.instance
     (JStr "h.p.forged") Demo.stale_cache
  = (Raises (Upstream "InvalidSignatureError"), Demo.stale_cache).
Proof.
  intros E.
  apply (@jwt_errors_are_not_wrapped E Demo.instance (JStr "h.p.forged")
           (Demo.jwks_with "old" 33)).
  - reflexivity.
  - right.
    exists [("alg", JStr "RS256"); ("kid", JStr "old")], (JStr "old"),
           (JDict [("kid", JStr "old"); ("n", JNum 33)]), (mkKey 33 65537).
    split; [reflexivity |]. split; [reflexivity |]. split; [| split; reflexivity].
    exists [], [], (JStr "old"). repeat split; constructor.
Defined.

Lemma jwks_fetch_failure_witness :
  fst (@OpenIdConnectAuthProviderTypeMixin._get_verifying_key Demo.accepting
         Demo.instance (JStr "h.p.s") true (Demo.world ∅))
  = Raises (AuthFlowError
      (Some "Failed to call JWK endpoint with URL https://idp.example/jwks")).
Proof.
  rewrite (@jwks_fetch_failure Demo.accepting Demo.instance (JStr "h.p.s") true
             (Demo.world ∅)).
  - reflexivity.
  - apply lookup_empty.
  - intros resp Hr. discriminate Hr.
Defined.

Lemma repeated_verification_is_offline_witness :
  let w1 := snd (@OpenIdConnectAuthProviderTypeMixin._get_verifying_key Demo.rotated
                   Demo.instance (JStr "h.p.s") true Demo.stale_cache) in
  @OpenIdConnectAuthProviderTypeMixin._get_verifying_key Demo.rotated
     Demo.instance (JStr "h.p.s") true w1
  = (Returns (mkKey 77 65537), w1).
Proof.
  intros w1.
  apply (@repeated_verification_is_offline Demo.rotated Demo.instance (JStr "h.p.s")
           true true Demo.stale_cache w1 (mkKey 77 65537)).
  vm_compute. reflexivity.
Defined.

(** ** OpenID Connect: what is persisted *)

Section Persist.
Context `{Env}.
Import OpenIdConnectAuthProviderTypeMixin.

Lemma get_wellknown_urls_ok base (w : World) resp doc a t u j i :
  requests_get (events w) (wellknown_url base) [] = Returns resp ->
  json_body resp = Returns (JDict doc) ->
  dict_lookup "authorization_endpoint" doc = Some a ->
  dict_lookup "token_endpoint" doc = Some t ->
  dict_lookup "userinfo_endpoint" doc = Some u ->
  dict_lookup "jwks_uri" doc = Some j ->
  dict_lookup "issuer" doc = Some i ->
  get_wellknown_urls base w
    = (Returns (mkWellKnownUrls a t u j i),
       record (EvRequestsGet (wellknown_url base) []) w).
Proof.
  intros Hget Hbody Ha Ht Hu Hj Hi.
  unfold get_wellknown_urls, requests_get_call, wellknown_url in *.
  unfold_monad. rewrite Hget, Hbody. cbn. now rewrite Ha, Ht, Hu, Hj, Hi.
Qed.

(** After a successful discovery, [create] and [update] hand to the
    persistence layer the given values followed by the five discovered
    endpoints, each under the name of its column: the authorization, token
    and user-info endpoints, the key-set URI and the issuer of the discovery
    document. *)
Theorem discovered_endpoints_are_persisted
    (provider : AuthProviderModel) (values doc : list (string * Json))
    (base a t u j i : Json) (resp : Response) (w : World) :
  dict_lookup "base_url" values = Some base ->
  requests_get (events w) (wellknown_url base) [] = Returns resp ->
  json_body resp = Returns (JDict doc) ->
  dict_lookup "authorization_endpoint" doc = Some a ->
  dict_lookup "token_endpoint" doc = Some t ->
  dict_lookup "userinfo_endpoint" doc = Some u ->
  dict_lookup "jwks_uri" doc = Some j ->
  dict_lookup "issuer" doc = Some i ->
  Forall (fun k => dict_lookup k values = None) discovered_fields ->
  let kwargs := values ++ [("authorization_url", a); ("access_token_url", t);
                           ("user_info_url", u); ("jwks_url", j); ("issuer", i)] in
  let w1 := record (EvRequestsGet (wellknown_url base) []) w in
  create values w = call_super_create kwargs w1 ∧
  (truthy base = true -> update provider values w = call_super_update provider kwargs w1).
Proof.
  intros Hbase Hget Hbody Ha Ht Hu Hj Hi Hfree kwargs w1.
  pose proof (get_wellknown_urls_ok _ _ _ _ _ _ _ _ _ Hget Hbody Ha Ht Hu Hj Hi) as Hw.
  assert (Hm : kwargs_merge values (asdict (mkWellKnownUrls a t u j i)) = Returns kwargs).
  { pose proof (proj1 (Forall_forall _ _) Hfree) as Hall.
    unfold kwargs_merge, asdict. cbn.
    rewrite (Hall "authorization_url"), (Hall "access_token_url"),
            (Hall "user_info_url"), (Hall "jwks_url"), (Hall "issuer")
      by (unfold discovered_fields; repeat constructor).
    reflexivity. }
  split.
  - unfold create. unfold_monad. cbn. rewrite Hbase. unfold_monad.
    rewrite Hw, Hm. reflexivity.
  - intros Htruthy. unfold update. rewrite Hbase, Htruthy. unfold_monad.
    rewrite Hw, Hm. reflexivity.
Qed.

(** When the given values already name one of the five discovered columns,
    [create] and [update] raise [TypeError] after the discovery request:
    nothing is persisted. *)
Theorem discovered_column_given_twice
    (provider : AuthProviderModel) (values doc : list (string * Json))
    (base a t u j i v : Json) (resp : Response) (w : World) (k : string) :
  dict_lookup "base_url" values = Some base ->
  requests_get (events w) (wellknown_url base) [] = Returns resp ->
  json_body resp = Returns (JDict doc) ->
  dict_lookup "authorization_endpoint" doc = Some a ->
  dict_lookup "token_endpoint" doc = Some t ->
  dict_lookup "userinfo_endpoint" doc = Some u ->
  dict_lookup "jwks_uri" doc = Some j ->
  dict_lookup "issuer" doc = Some i ->
  k ∈ discovered_fields ->
  dict_lookup k values = Some v ->
  let w1 := record (EvRequestsGet (wellknown_url base) []) w in
  create values w = (Raises TypeError, w1) ∧
  (truthy base = true -> update provider values w = (Raises TypeError, w1)) ∧
  providers w1 = providers w.
Proof.
  intros Hbase Hget Hbody Ha Ht Hu Hj Hi Hin Hk w1.
  pose proof (get_wellknown_urls_ok _ _ _ _ _ _ _ _ _ Hget Hbody Ha Ht Hu Hj Hi) as Hw.
  assert (Hm : kwargs_merge values (asdict (mkWellKnownUrls a t u j i)) = Raises TypeError).
  { unfold kwargs_merge.
    assert (Hex : existsb (fun kv => match dict_lookup (fst kv) values with
                                     | Some _ => true
                                     | None => false
                                     end) (asdict (mkWellKnownUrls a t u j i)) = true).
    { apply existsb_exists. unfold discovered_fields in Hin. unfold asdict. cbn.
      repeat (apply elem_of_cons in Hin as [-> | Hin]);
        [.. | now apply elem_of_nil in Hin];
        eexists (_, _); (split; [| cbn; rewrite Hk; reflexivity]); cbn; tauto. }
    now rewrite Hex. }
  split; [| split; [| reflexivity]].
  - unfold create. unfold_monad. cbn. rewrite Hbase. unfold_monad.
    rewrite Hw, Hm. reflexivity.
  - intros Htruthy. unfold update. rewrite Hbase, Htruthy. unfold_monad.
    rewrite Hw, Hm. reflexivity.
Qed.

End Persist.

Lemma discovered_endpoints_are_persisted_witness :
  let kwargs := Demo.new_values ++
                [("authorization_url", JStr "https://idp.example/authorize");
                 ("access_token_url", JStr "https://idp.example/token");
                 ("user_info_url", JStr "https://idp.example/userinfo");
                 ("jwks_url", JStr "https://idp.example/jwks");
                 ("issuer", JStr "https://idp.example")] in
  @OpenIdConnectAuthProviderTypeMixin.create DemoMore.discovering Demo.new_values
     (Demo.world ∅)
  = @call_super_create DemoMore.discovering kwargs
      (record (EvRequestsGet "https://idp.example/.well-known/openid-configuration" [])
              (Demo.world ∅)).
Proof.
  intros kwargs.
  refine (proj1 (@discovered_endpoints_are_persisted DemoMore.discovering Demo.instance
                   Demo.new_values DemoMore.discovery_document
                   (JStr "https://idp.example") _ _ _ _ _
                   (mkResponse 200 (Returns (JDict DemoMore.discovery_document)))
                   (Demo.world ∅) _ _ _ _ _ _ _ _ _));
    try reflexivity.
  unfold discovered_fields. repeat constructor.
Defined.

Lemma discovered_column_given_twice_witness :
  let values := [("base_url", JStr "https://idp.example");
                 ("issuer", JStr "https://elsewhere.example")] in
  fst (@OpenIdConnectAuthProviderTypeMixin.create DemoMore.discovering values
         (Demo.world ∅)) = Raises TypeError ∧
  providers (snd (@OpenIdConnectAuthProviderTypeMixin.create DemoMore.discovering values
                    (Demo.world ∅))) = ∅.
Proof.
  intros values.
  destruct (@discovered_column_given_twice DemoMore.discovering Demo.instance
              values DemoMore.discovery_document
              (JStr "https://idp.example")
              (JStr "https://idp.example/authorize") (JStr "https://idp.example/token")
              (JStr "https://idp.example/userinfo") (JStr "https://idp.example/jwks")
              (JStr "https://idp.example") (JStr "https://elsewhere.example")
              (mkResponse 200 (Returns (JDict DemoMore.discovery_document)))
              (Demo.world ∅) "issuer")
    as (Hc & _ & Hp); try reflexivity.
  - unfold discovered_fields. repeat constructor.
  - rewrite Hc. split; [reflexivity | exact Hp].
Defined.

(** ** [strip] at work *)

(** The blanks of Unicode are removed, and a letter whose encoding ends with
    the byte of a blank is kept whole. *)
Example strip_removes_unicode_blanks :
  strip (DemoMore.no_break_space +:+ " Ada" +:+ DemoMore.em_space +:+ DemoMore.byte_160)
    = "Ada" ∧
  strip (DemoMore.no_break_space +:+ DemoMore.em_space) = "" ∧
  strip DemoMore.byte_160 = "" ∧
  strip ("voil" +:+ DemoMore.a_grave +:+ " ") = "voil" +:+ DemoMore.a_grave.
Proof. repeat split; reflexivity. Qed.

(** A first name that is a no-break space is empty once stripped: the
    display name is the e-mail address. *)
Example blank_name_gives_email :
  @OpenIdConnectAuthProviderTypeMixin.get_user_info_from_user_info_endpoint
     Demo.instance
     (JDict [("email", JStr "ada@example.com");
             ("given_name", JStr DemoMore.no_break_space)])
  = Returns (JStr "ada@example.com", JStr "ada@example.com").
Proof. reflexivity. Qed.
